(** * Snippet Arsenal: the snippet store and the editor session of [main.py]

    The development embeds the database functions [db_search], [db_get],
    [db_insert], [db_update], [db_delete] and the methods of
    [SnippetArsenalApp] that carry the session logic ([refresh_results],
    [on_select], [new_snippet], [save_snippet]).

    Modelling choices.
    - Text is [string]: a sequence of characters with code points below 256.
      [str.strip] removes the characters for which [str.isspace] holds.
    - The [snippets] table is the list of its rows in rowid order, together
      with the counter that [AUTOINCREMENT] keeps in [sqlite_sequence].
    - [CURRENT_TIMESTAMP] is the reading [now] of the wall clock, passed to
      the statements that use it.  The timestamp text [YYYY-MM-DD HH:MM:SS]
      sorts like the instant it denotes, so a timestamp is a number.
    - SQL [LIKE] is SQLite's default one: [%] matches any run of characters,
      [_] any single character, letters of ASCII match without regard to
      case, there is no escape character.  The engine's build-time limits
      (pattern length, largest rowid) are not part of the model, and text is
      taken to be free of the character U+0000, at which the engine's text
      functions stop.
    - The methods of the application run in a state monad over the widgets'
      values, the store and a trace of store calls and dialogs; an uncaught
      Python exception ends the method and keeps the state reached so far. *)

From Stdlib Require Import List String Ascii ZArith NArith Bool Lia Arith.
From Stdlib Require Import Sorting.Sorted Sorting.Permutation.
Import ListNotations.
Local Open Scope list_scope.
Local Open Scope string_scope.

(** ** Text *)

Module Text.

(** [str.isspace] on one character (code points below 256). *)
Definition is_space (c : ascii) : bool :=
  match N_of_ascii c with
  | 9 | 10 | 11 | 12 | 13 | 28 | 29 | 30 | 31 | 32 | 133 | 160 => true
  | _ => false
  end%N.

(** Python truth value of a string. *)
Definition truthy (s : string) : bool :=
  match s with
  | EmptyString => false
  | String _ _ => true
  end.

Fixpoint lstrip (s : string) : string :=
  match s with
  | EmptyString => EmptyString
  | String c s' => if is_space c then lstrip s' else s
  end.

Fixpoint rstrip (s : string) : string :=
  match s with
  | EmptyString => EmptyString
  | String c s' =>
      match rstrip s' with
      | EmptyString => if is_space c then EmptyString else String c EmptyString
      | String d r => String c (String d r)
      end
  end.

(** [s.strip()] *)
Definition strip (s : string) : string := lstrip (rstrip s).

(** [s.split(sep)] for a one-character separator: never the empty list. *)
Fixpoint split (sep : ascii) (s : string) : list string :=
  match s with
  | EmptyString => [EmptyString]
  | String c s' =>
      if Ascii.eqb c sep then EmptyString :: split sep s'
      else match split sep s' with
           | [] => [String c EmptyString]
           | h :: t => String c h :: t
           end
  end.

(** [sep.join(l)] *)
Definition join (sep : string) (l : list string) : string := String.concat sep l.

Definition comma : ascii := ","%char.

(** The generator [(t.strip() for t in tags.split(",") if t.strip())]. *)
Definition kept_tags (tags : string) : list string :=
  map strip (filter (fun t => truthy (strip t)) (split comma tags)).

(** Line 328 of [save_snippet]:
    [",".join(t.strip() for t in tags.split(",") if t.strip())]. *)
Definition normalize_tags (tags : string) : string :=
  join "," (kept_tags tags).

(** Occurrence of a character in a string. *)
Fixpoint mem_char (c : ascii) (s : string) : bool :=
  match s with
  | EmptyString => false
  | String d s' => Ascii.eqb d c || mem_char c s'
  end.

(** ASCII lower-casing, the folding SQLite's [LIKE] applies. *)
Definition tolower (c : ascii) : ascii :=
  let n := N_of_ascii c in
  if ((65 <=? n) && (n <=? 90))%N then ascii_of_N (n + 32) else c.

Fixpoint lower (s : string) : string :=
  match s with
  | EmptyString => EmptyString
  | String c s' => String (tolower c) (lower s')
  end.

(** [k] occurs in [f] as a substring, letters of ASCII compared without
    regard to case. *)
Definition substring_nocase (k f : string) : Prop :=
  exists pre mid post, f = pre ++ mid ++ post /\ lower mid = lower k.

Fixpoint prefix_nocase (k s : string) : bool :=
  match k, s with
  | EmptyString, _ => true
  | String _ _, EmptyString => false
  | String c k', String d s' => Ascii.eqb (tolower c) (tolower d) && prefix_nocase k' s'
  end.

(** Executable form of [substring_nocase]. *)
Fixpoint contains_nocase (k f : string) : bool :=
  prefix_nocase k f ||
  match f with
  | EmptyString => false
  | String _ f' => contains_nocase k f'
  end.

(** SQLite [s LIKE p]: the first argument is the pattern. *)
Fixpoint like (p : string) : string -> bool :=
  match p with
  | EmptyString => fun s => negb (truthy s)
  | String c p' =>
      if Ascii.eqb c "%" then
        fix star (s : string) : bool :=
          like p' s ||
          match s with
          | EmptyString => false
          | String _ s' => star s'
          end
      else if Ascii.eqb c "_" then
        fun s => match s with
                 | EmptyString => false
                 | String _ s' => like p' s'
                 end
      else
        fun s => match s with
                 | EmptyString => false
                 | String d s' => Ascii.eqb (tolower c) (tolower d) && like p' s'
                 end
  end.

End Text.

(** ** The snippet store *)

Module Store.

Definition timestamp := nat.

(** One row of the table [snippets]; [notes] is the only nullable column
    that the statements write. *)
Record row := {
  id : Z;
  title : string;
  language : string;
  tags : string;
  status : string;
  code : string;
  notes : option string;
  created_at : timestamp;
  updated_at : timestamp
}.

(** The table in rowid order and the [sqlite_sequence] counter of its
    [AUTOINCREMENT] key. *)
Record t := {
  rows : list row;
  seq : Z
}.

Definition empty : t := {| rows := []; seq := 0 |}.

(** SQL [IFNULL(x, d)] *)
Definition ifnull (x : option string) (d : string) : string :=
  match x with
  | Some v => v
  | None => d
  end.

Definition summary : Type := Z * string * string * string * string.
Definition full : Type := Z * string * string * string * string * string * string.

(** [SELECT id, title, language, tags, status] *)
Definition select_summary (r : row) : summary :=
  (id r, title r, language r, tags r, status r).

(** [SELECT id, title, language, tags, status, code, IFNULL(notes, '')] *)
Definition select_full (r : row) : full :=
  (id r, title r, language r, tags r, status r, code r, ifnull (notes r) "").

(** [row[0]] of a summary tuple and [row[3]] of a full tuple. *)
Definition summary_id (s : summary) : Z := let '(i, _, _, _, _) := s in i.
Definition full_tags (f : full) : string := let '(_, _, _, tg, _, _, _) := f in tg.

(** The keyword occurs in one of the five searched columns. *)
Definition keyword_in_fields (k : string) (r : row) : Prop :=
  Text.substring_nocase k (title r)
  \/ Text.substring_nocase k (language r)
  \/ Text.substring_nocase k (tags r)
  \/ Text.substring_nocase k (code r)
  \/ Text.substring_nocase k (ifnull (notes r) "").

(** [a] was updated no earlier than [b]. *)
Definition newer_or_equal (a b : row) : Prop := updated_at b <= updated_at a.

(** The [WHERE] clause of [db_search], [q] bound to its five parameters. *)
Definition where_like (q : string) (r : row) : bool :=
  Text.like q (title r)
  || Text.like q (language r)
  || Text.like q (tags r)
  || Text.like q (code r)
  || Text.like q (ifnull (notes r) "").

(** [ORDER BY updated_at DESC]: insertion of a row in front of the first row
    that is not newer.  Rows with equal [updated_at] keep the table's order
    (SQL leaves their order open). *)
Fixpoint insert_desc (r : row) (l : list row) : list row :=
  match l with
  | [] => [r]
  | x :: l' =>
      if (updated_at x <=? updated_at r)%nat then r :: l
      else x :: insert_desc r l'
  end.

Definition order_by_updated_desc (l : list row) : list row :=
  fold_right insert_desc [] l.

(** The rows that the [SELECT] of [db_search] visits, before the [LIMIT]. *)
Definition search_ordered (db : t) (query : string) : list row :=
  let q := "%" ++ Text.strip query ++ "%" in
  order_by_updated_desc (filter (where_like q) (rows db)).

(** ... and after [LIMIT 200]. *)
Definition search_rows (db : t) (query : string) : list row :=
  firstn 200 (search_ordered db query).

Definition db_search (db : t) (query : string) : list summary :=
  map select_summary (search_rows db query).

(** The stored row whose key is [snippet_id], with all its columns. *)
Definition lookup (db : t) (snippet_id : Z) : option row :=
  find (fun r => id r =? snippet_id)%Z (rows db).

(** [cur.fetchone()] is [None] when no row has the key. *)
Definition db_get (db : t) (snippet_id : Z) : option full :=
  option_map select_full (lookup db snippet_id).

(** The key [AUTOINCREMENT] gives to the next row: one more than the largest
    key that ever was in the table. *)
Definition next_rowid (db : t) : Z :=
  (Z.max (seq db) (fold_right Z.max 0 (map id (rows db))) + 1)%Z.

(** Returns [cur.lastrowid] and the store after the commit; both timestamp
    columns take their default [CURRENT_TIMESTAMP]. *)
Definition db_insert (db : t) (now : timestamp)
    (title language tags status code : string) (notes : option string) : Z * t :=
  let i := next_rowid db in
  let r := {| id := i; title := title; language := language; tags := tags;
              status := status; code := code; notes := notes;
              created_at := now; updated_at := now |} in
  (i, {| rows := rows db ++ [r]; seq := i |}).

(** The [SET] list of [db_update] applied to one row. *)
Definition set_columns (now : timestamp)
    (title language tags status code : string) (notes : option string)
    (r : row) : row :=
  {| id := id r; title := title; language := language; tags := tags;
     status := status; code := code; notes := notes;
     created_at := created_at r; updated_at := now |}.

Definition db_update (db : t) (now : timestamp) (snippet_id : Z)
    (title language tags status code : string) (notes : option string) : t :=
  {| rows := map (fun r => if (id r =? snippet_id)%Z
                           then set_columns now title language tags status code notes r
                           else r) (rows db);
     seq := seq db |}.

Definition db_delete (db : t) (snippet_id : Z) : t :=
  {| rows := filter (fun r => negb (id r =? snippet_id)%Z) (rows db);
     seq := seq db |}.

(** A statement that writes to the table. *)
Inductive statement :=
| Insert (title language tags status code : string) (notes : option string)
| Update (snippet_id : Z) (title language tags status code : string)
    (notes : option string)
| Delete (snippet_id : Z).

Definition execute (db : t) (now : timestamp) (st : statement) : t :=
  match st with
  | Insert title language tags status code notes =>
      snd (db_insert db now title language tags status code notes)
  | Update i title language tags status code notes =>
      db_update db now i title language tags status code notes
  | Delete i => db_delete db i
  end.

(** The tables that the program builds from the empty one while the clock
    does not run backwards; the second index is the clock's reading at the
    latest statement. *)
Inductive built : t -> timestamp -> Prop :=
| built_empty : built empty 0
| built_step (db : t) (last now : timestamp) (st : statement) :
    built db last -> last <= now -> built (execute db now st) now.

(** The invariants of the data model: keys are unique and were handed out
    by the counter, and no row was created after it was last updated or
    updated after the clock's latest reading. *)
Definition consistent (db : t) (last : timestamp) : Prop :=
  NoDup (map id (rows db))
  /\ Forall (fun r => (0 < id r <= seq db)%Z
                      /\ created_at r <= updated_at r
                      /\ updated_at r <= last) (rows db).

End Store.

(** ** The editor session: [SnippetArsenalApp] *)

Module App.

Import Store.

(** The attributes of [self] that the session logic reads and writes.  A
    [StringVar] holds a string; a [Text] widget holds its content, to which
    [get("1.0", "end")] adds the final newline; [results] holds the value
    tuples of the tree view's items in display order and [selection] the
    positions of the selected items. *)
Record state := {
  selected_id : option Z;
  search_var : string;
  title_var : string;
  lang_var : string;
  status_var : string;
  tags_var : string;
  code_text : string;
  notes_text : string;
  results : list summary;
  selection : list nat
}.

Definition set_selected_id (v : option Z) (a : state) : state :=
  {| selected_id := v; search_var := search_var a; title_var := title_var a;
     lang_var := lang_var a; status_var := status_var a; tags_var := tags_var a;
     code_text := code_text a; notes_text := notes_text a;
     results := results a; selection := selection a |}.

Definition set_title_var (v : string) (a : state) : state :=
  {| selected_id := selected_id a; search_var := search_var a; title_var := v;
     lang_var := lang_var a; status_var := status_var a; tags_var := tags_var a;
     code_text := code_text a; notes_text := notes_text a;
     results := results a; selection := selection a |}.

Definition set_lang_var (v : string) (a : state) : state :=
  {| selected_id := selected_id a; search_var := search_var a; title_var := title_var a;
     lang_var := v; status_var := status_var a; tags_var := tags_var a;
     code_text := code_text a; notes_text := notes_text a;
     results := results a; selection := selection a |}.

Definition set_status_var (v : string) (a : state) : state :=
  {| selected_id := selected_id a; search_var := search_var a; title_var := title_var a;
     lang_var := lang_var a; status_var := v; tags_var := tags_var a;
     code_text := code_text a; notes_text := notes_text a;
     results := results a; selection := selection a |}.

Definition set_tags_var (v : string) (a : state) : state :=
  {| selected_id := selected_id a; search_var := search_var a; title_var := title_var a;
     lang_var := lang_var a; status_var := status_var a; tags_var := v;
     code_text := code_text a; notes_text := notes_text a;
     results := results a; selection := selection a |}.

(** [code_text.delete("1.0", "end")] *)
Definition code_text_delete (a : state) : state :=
  {| selected_id := selected_id a; search_var := search_var a; title_var := title_var a;
     lang_var := lang_var a; status_var := status_var a; tags_var := tags_var a;
     code_text := ""; notes_text := notes_text a;
     results := results a; selection := selection a |}.

(** [code_text.insert("1.0", v)] *)
Definition code_text_insert (v : string) (a : state) : state :=
  {| selected_id := selected_id a; search_var := search_var a; title_var := title_var a;
     lang_var := lang_var a; status_var := status_var a; tags_var := tags_var a;
     code_text := v ++ code_text a; notes_text := notes_text a;
     results := results a; selection := selection a |}.

(** [notes_text.delete("1.0", "end")] *)
Definition notes_text_delete (a : state) : state :=
  {| selected_id := selected_id a; search_var := search_var a; title_var := title_var a;
     lang_var := lang_var a; status_var := status_var a; tags_var := tags_var a;
     code_text := code_text a; notes_text := "";
     results := results a; selection := selection a |}.

(** [notes_text.insert("1.0", v)] *)
Definition notes_text_insert (v : string) (a : state) : state :=
  {| selected_id := selected_id a; search_var := search_var a; title_var := title_var a;
     lang_var := lang_var a; status_var := status_var a; tags_var := tags_var a;
     code_text := code_text a; notes_text := v ++ notes_text a;
     results := results a; selection := selection a |}.

(** [results.delete(item)] for every item: the selection goes with them. *)
Definition results_clear (a : state) : state :=
  {| selected_id := selected_id a; search_var := search_var a; title_var := title_var a;
     lang_var := lang_var a; status_var := status_var a; tags_var := tags_var a;
     code_text := code_text a; notes_text := notes_text a;
     results := []; selection := [] |}.

(** [results.insert("", "end", values=r)] *)
Definition results_insert_end (r : summary) (a : state) : state :=
  {| selected_id := selected_id a; search_var := search_var a; title_var := title_var a;
     lang_var := lang_var a; status_var := status_var a; tags_var := tags_var a;
     code_text := code_text a; notes_text := notes_text a;
     results := (results a ++ [r])%list; selection := selection a |}.

(** The tree view showing [rows] and nothing selected. *)
Definition with_results (rows : list summary) (a : state) : state :=
  {| selected_id := selected_id a; search_var := search_var a; title_var := title_var a;
     lang_var := lang_var a; status_var := status_var a; tags_var := tags_var a;
     code_text := code_text a; notes_text := notes_text a;
     results := rows; selection := [] |}.

(** [widget.get("1.0", "end")] *)
Definition text_get (content : string) : string := content ++ String "010" "".

(** What a method does to the world outside [self]. *)
Inductive event :=
| CallSearch (query : string)
| CallGet (snippet_id : Z)
| CallInsert (title language tags status code : string) (notes : option string)
| CallUpdate (snippet_id : Z) (title language tags status code : string) (notes : option string)
| CallDelete (snippet_id : Z)
| ShowError (title message : string)
| ShowInfo (title message : string).

Record world := {
  app : state;
  db : Store.t;
  trace : list event
}.

(** Python exceptions that the methods can raise. *)
Inductive exn :=
| TypeError   (* subscript of [None] *)
| TclError.   (* item of the tree view not found *)

Inductive outcome (A : Type) :=
| Return (a : A)
| Raise (e : exn).
Arguments Return {A} a.
Arguments Raise {A} e.

Definition M (A : Type) : Type := world -> outcome A * world.

Definition ret {A} (a : A) : M A := fun w => (Return a, w).

Definition bind {A B} (m : M A) (k : A -> M B) : M B :=
  fun w => match m w with
           | (Return a, w') => k a w'
           | (Raise e, w') => (Raise e, w')
           end.

Definition raise {A} (e : exn) : M A := fun w => (Raise e, w).

Definition read {A} (f : state -> A) : M A := fun w => (Return (f (app w)), w).

Definition write (f : state -> state) : M unit :=
  fun w => (Return tt, {| app := f (app w); db := db w; trace := trace w |}).

Definition emit (e : event) : M unit :=
  fun w => (Return tt, {| app := app w; db := db w; trace := (trace w ++ [e])%list |}).

Declare Scope method_scope.
Delimit Scope method_scope with method.
Notation "x <- m ;; k" := (bind m (fun x => k))
  (at level 100, m at next level, right associativity) : method_scope.
Notation "m ;; k" := (bind m (fun _ => k))
  (at level 100, right associativity) : method_scope.
Local Open Scope method_scope.

(** [for x in l: body(x)] *)
Fixpoint for_each {A} (l : list A) (body : A -> M unit) : M unit :=
  match l with
  | [] => ret tt
  | x :: l' => body x ;; for_each l' body
  end.

Definition showerror (title message : string) : M unit := emit (ShowError title message).
Definition showinfo (title message : string) : M unit := emit (ShowInfo title message).

Section Methods.

(** The reading of the clock while the method runs. *)
Variable now : timestamp.

Definition call_db_search (query : string) : M (list summary) :=
  emit (CallSearch query) ;;
  fun w => (Return (db_search (db w) query), w).

Definition call_db_get (snippet_id : Z) : M (option full) :=
  emit (CallGet snippet_id) ;;
  fun w => (Return (db_get (db w) snippet_id), w).

Definition call_db_insert (title language tags status code : string)
    (notes : option string) : M Z :=
  emit (CallInsert title language tags status code notes) ;;
  fun w => let (i, db') := db_insert (db w) now title language tags status code notes in
           (Return i, {| app := app w; db := db'; trace := trace w |}).

Definition call_db_update (snippet_id : Z) (title language tags status code : string)
    (notes : option string) : M unit :=
  emit (CallUpdate snippet_id title language tags status code notes) ;;
  fun w => (Return tt,
            {| app := app w;
               db := db_update (db w) now snippet_id title language tags status code notes;
               trace := trace w |}).

Definition call_db_delete (snippet_id : Z) : M unit :=
  emit (CallDelete snippet_id) ;;
  fun w => (Return tt,
            {| app := app w; db := db_delete (db w) snippet_id; trace := trace w |}).

Definition refresh_results : M unit :=
  write results_clear ;;
  query <- read search_var ;;
  rows <- call_db_search query ;;
  for_each rows (fun r => write (results_insert_end r)).

(** [int(self.results.item(item, "values")[0])] *)
Definition item_id (item : nat) : M Z :=
  items <- read results ;;
  match nth_error items item with
  | Some values => ret (summary_id values)
  | None => raise TclError
  end.

Definition on_select : M unit :=
  sel <- read selection ;;
  match sel with
  | [] => ret tt
  | item :: _ =>
      snippet_id <- item_id item ;;
      row <- call_db_get snippet_id ;;
      match row with
      | None => raise TypeError
      | Some (row0, row1, row2, row3, row4, row5, row6) =>
          write (set_selected_id (Some row0)) ;;
          write (set_title_var row1) ;;
          write (set_lang_var row2) ;;
          write (set_tags_var row3) ;;
          write (set_status_var row4) ;;
          write code_text_delete ;;
          write (code_text_insert row5) ;;
          write notes_text_delete ;;
          write (notes_text_insert row6)
      end
  end.

Definition new_snippet : M unit :=
  write (set_selected_id None) ;;
  write (set_title_var "") ;;
  write (set_lang_var "py") ;;
  write (set_tags_var "") ;;
  write (set_status_var "draft") ;;
  write code_text_delete ;;
  write notes_text_delete.

Definition save_snippet : M unit :=
  title <- read (fun a => Text.strip (title_var a)) ;;
  language <- read (fun a => Text.strip (lang_var a)) ;;
  tags <- read (fun a => Text.strip (tags_var a)) ;;
  status <- read (fun a => Text.strip (status_var a)) ;;
  code <- read (fun a => Text.strip (text_get (code_text a))) ;;
  notes <- read (fun a => Text.strip (text_get (notes_text a))) ;;
  if negb (Text.truthy title) || negb (Text.truthy language)
     || negb (Text.truthy tags) || negb (Text.truthy code)
  then showerror "Error" "Title, language, tags, and code are required."
  else
    let tags := Text.normalize_tags tags in
    sel <- read selected_id ;;
    match sel with
    | None =>
        i <- call_db_insert title language tags status code (Some notes) ;;
        write (set_selected_id (Some i))
    | Some i =>
        call_db_update i title language tags status code (Some notes)
    end ;;
    refresh_results ;;
    showinfo "Saved" "Snippet saved.".

(** [confirmed] is the answer to [messagebox.askyesno]. *)
Definition delete_snippet (confirmed : bool) : M unit :=
  sel <- read selected_id ;;
  match sel with
  | None => ret tt
  | Some i =>
      if negb confirmed then ret tt
      else
        call_db_delete i ;;
        new_snippet ;;
        refresh_results
  end.

End Methods.

(** The session state of the specification: [{no selection}] or
    [{editing id}]. *)
Definition no_selection (a : state) : Prop := selected_id a = None.
Definition editing (i : Z) (a : state) : Prop := selected_id a = Some i.

(** The four required fields are not empty once stripped. *)
Definition required_present (a : state) : Prop :=
  Text.strip (title_var a) <> ""
  /\ Text.strip (lang_var a) <> ""
  /\ Text.strip (tags_var a) <> ""
  /\ Text.strip (code_text a) <> "".

End App.

(** ** Sample data: the scenario of the specification *)

Module Sample.

Import Store App.

Definition bin_search : row :=
  {| id := 1; title := "Bin Search"; language := "py"; tags := "algo,search";
     status := "draft"; code := "def f(): pass"; notes := Some "";
     created_at := 10; updated_at := 10 |}.

Definition quick_sort : row :=
  {| id := 2; title := "Quick Sort"; language := "c"; tags := "algo,sort";
     status := "tested"; code := "void qs(int *a, int n);"; notes := None;
     created_at := 20; updated_at := 20 |}.

(** The table after the two inserts. *)
Definition store : Store.t :=
  snd (db_insert
         (snd (db_insert Store.empty 10 "Bin Search" "py" "algo,search" "draft"
                 "def f(): pass" (Some "")))
         20 "Quick Sort" "c" "algo,sort" "tested" "void qs(int *a, int n);" None).

(** A filled form, nothing selected. *)
Definition form : state :=
  {| selected_id := None; search_var := "algo";
     title_var := " Merge Sort "; lang_var := "py";
     status_var := "draft"; tags_var := "a, b , c";
     code_text := "def ms(xs): pass"; notes_text := "";
     results := map select_summary [quick_sort; bin_search]; selection := [] |}.

Definition new_form : world :=
  {| app := form; db := store; trace := [] |}.

(** The same form while record 1 is being edited. *)
Definition edit_form : world :=
  {| app := set_selected_id (Some 1%Z) form; db := store; trace := [] |}.

(** The form with its title blanked out. *)
Definition blank_title_form : world :=
  {| app := set_title_var "   " form; db := store; trace := [] |}.

(** The list still shows both records, the second item is selected, and the
    table has lost record 1 in the meantime. *)
Definition stale_list : world :=
  {| app := {| selected_id := None; search_var := "algo";
               title_var := ""; lang_var := "py";
               status_var := "draft"; tags_var := "";
               code_text := ""; notes_text := "";
               results := map select_summary [quick_sort; bin_search];
               selection := [1] |};
     db := db_delete store 1;
     trace := [] |}.

End Sample.

(** ** The specification's case-insensitive match, the limit on patterns *)








(** ** Histories of statements, the clipboard, canonical rows *)

(** The statements of [l], each with the clock's reading at its time, run
    in order. *)
Definition execute_all (db : Store.t) (l : list (Store.timestamp * Store.statement))
    : Store.t :=
  fold_left (fun d ts => Store.execute d (fst ts) (snd ts)) l db.

(** [copy_code], as a function of the session and of the clipboard's
    content: [clipboard_clear()] empties the clipboard and
    [clipboard_append(code)] adds to it. *)
Definition clipboard_clear (clipboard : string) : string := "".
Definition clipboard_append (code : string) (clipboard : string) : string :=
  clipboard ++ code.

Definition copy_code (a : App.state) (clipboard : string) : string :=
  let code := Text.strip (App.text_get (App.code_text a)) in
  if negb (Text.truthy code) then clipboard
  else clipboard_append code (clipboard_clear clipboard).

(** The user selects the item at position [item] of the result list: the
    tree view's [selection()] then returns that item. *)
Definition click (item : nat) (w : App.world) : App.world :=
  {| App.app :=
       {| App.selected_id := App.selected_id (App.app w);
          App.search_var := App.search_var (App.app w);
          App.title_var := App.title_var (App.app w);
          App.lang_var := App.lang_var (App.app w);
          App.status_var := App.status_var (App.app w);
          App.tags_var := App.tags_var (App.app w);
          App.code_text := App.code_text (App.app w);
          App.notes_text := App.notes_text (App.app w);
          App.results := App.results (App.app w);
          App.selection := [item] |};
     App.db := App.db w;
     App.trace := App.trace w |}.

(** A row whose text columns are what [save_snippet] writes: stripped, the
    tags in normal form, the notes not null. *)
Definition saved_form (r : Store.row) : Prop :=
  Text.strip (Store.title r) = Store.title r
  /\ Text.strip (Store.language r) = Store.language r
  /\ Text.normalize_tags (Text.strip (Store.tags r)) = Store.tags r
  /\ Text.strip (Store.status r) = Store.status r
  /\ Text.strip (Store.code r) = Store.code r
  /\ exists n, Store.notes r = Some n /\ Text.strip n = n.

(** ** More sample data *)

Module Scenario.

Import Store App.

(** The list shows both records of the sample table and its second item,
    record 1, is selected. *)
Definition fresh_list : world :=
  {| app := app Sample.stale_list; db := Sample.store; trace := [] |}.

(** The form is filled and the session edits record 7, which the table does
    not hold. *)
Definition vanished : world :=
  {| app := set_selected_id (Some 7%Z) Sample.form; db := Sample.store; trace := [] |}.

(** The tags field holds separators only. *)
Definition comma_tags : world :=
  {| app := set_tags_var " , ," Sample.form; db := Sample.store; trace := [] |}.

End Scenario.

(** * Properties *)

Example strip_ex : Text.strip "  a b
 " = "a b".
Proof. reflexivity. Qed.

Example split_ex : Text.split Text.comma " a, b,, c " = [" a"; " b"; ""; " c "]%list.
Proof. reflexivity. Qed.

Example normalize_ex : Text.normalize_tags " a, b,, c " = "a,b,c".
Proof. reflexivity. Qed.

Example like_ex : Text.like "%A_g%" "my algo" = true.
Proof. reflexivity. Qed.

Example like_ex2 : Text.like "%A_go_%" "my algo" = false.
Proof. reflexivity. Qed.

(** ** Stripping, splitting and joining *)

Section TextFacts.

Import Text.

Lemma lstrip_idem (s : string) : lstrip (lstrip s) = lstrip s.
Proof.
  induction s as [|c s IH]; simpl; auto.
  destruct (is_space c) eqn:E; auto.
  simpl. now rewrite E.
Qed.

Lemma rstrip_idem (s : string) : rstrip (rstrip s) = rstrip s.
Proof.
  induction s as [|c s IH]; simpl; auto.
  destruct (rstrip s) as [|d r] eqn:R.
  - destruct (is_space c) eqn:E; simpl; auto. now rewrite E.
  - change (rstrip (String c (String d r))) with
      (match rstrip (String d r) with
       | EmptyString => if is_space c then EmptyString else String c EmptyString
       | String d' r' => String c (String d' r')
       end).
    now rewrite IH.
Qed.

Lemma lstrip_rstrip_comm (s : string) : rstrip (lstrip s) = lstrip (rstrip s).
Proof.
  induction s as [|c s IH]; simpl; auto.
  destruct (is_space c) eqn:E.
  - rewrite IH. destruct (rstrip s) as [|d r]; simpl; now rewrite ?E.
  - simpl. destruct (rstrip s) as [|d r]; simpl; now rewrite E.
Qed.

Lemma strip_idem (s : string) : strip (strip s) = strip s.
Proof.
  unfold strip.
  now rewrite lstrip_rstrip_comm, rstrip_idem, lstrip_idem.
Qed.

Lemma mem_char_lstrip (c : ascii) (s : string) :
  mem_char c s = false -> mem_char c (lstrip s) = false.
Proof.
  induction s as [|d s IH]; simpl; auto.
  intros H. apply orb_false_iff in H as [Hd Hs].
  destruct (is_space d); simpl; auto.
  now rewrite Hd, Hs.
Qed.

Lemma mem_char_rstrip (c : ascii) (s : string) :
  mem_char c s = false -> mem_char c (rstrip s) = false.
Proof.
  induction s as [|d s IH]; simpl; auto.
  intros H. apply orb_false_iff in H as [Hd Hs].
  specialize (IH Hs).
  destruct (rstrip s) as [|e r].
  - destruct (is_space d); simpl; auto. now rewrite Hd.
  - change (mem_char c (String d (String e r)))
      with (Ascii.eqb d c || mem_char c (String e r)).
    now rewrite Hd, IH.
Qed.

Lemma mem_char_strip (c : ascii) (s : string) :
  mem_char c s = false -> mem_char c (strip s) = false.
Proof. intros H. unfold strip. now apply mem_char_lstrip, mem_char_rstrip. Qed.

Lemma split_no_sep (sep : ascii) (s : string) :
  Forall (fun t => mem_char sep t = false) (split sep s).
Proof.
  induction s as [|c s IH]; simpl.
  - constructor; auto.
  - destruct (Ascii.eqb c sep) eqn:E.
    + constructor; auto.
    + destruct (split sep s) as [|h t].
      * constructor; auto. simpl. now rewrite E.
      * inversion IH; subst. constructor; auto. simpl. now rewrite E.
Qed.

Lemma split_no_sep_id (sep : ascii) (s : string) :
  mem_char sep s = false -> split sep s = [s].
Proof.
  induction s as [|c s IH]; simpl; auto.
  intros H. apply orb_false_iff in H as [Hc Hs].
  now rewrite Hc, (IH Hs).
Qed.

Lemma split_app_sep (sep : ascii) (x rest : string) :
  mem_char sep x = false ->
  split sep (x ++ String sep rest) = x :: split sep rest.
Proof.
  induction x as [|c x IH]; simpl.
  - intros _. now rewrite Ascii.eqb_refl.
  - intros H. apply orb_false_iff in H as [Hc Hx].
    now rewrite Hc, (IH Hx).
Qed.

Lemma split_join (l : list string) :
  l <> [] ->
  Forall (fun t => mem_char comma t = false) l ->
  split comma (join "," l) = l.
Proof.
  induction l as [|x l IH]; [congruence|].
  intros _ H. inversion H as [|? ? Hx Hl]; subst.
  destruct l as [|y l].
  - simpl. now apply split_no_sep_id.
  - change (join "," (x :: y :: l)) with (x ++ String comma (join "," (y :: l))).
    rewrite split_app_sep by assumption.
    f_equal. apply IH; [discriminate | assumption].
Qed.

Lemma kept_tags_canonical (s : string) :
  Forall (fun t => mem_char comma t = false /\ strip t = t /\ truthy t = true)
    (kept_tags s).
Proof.
  unfold kept_tags.
  pose proof (split_no_sep comma s) as H.
  induction (split comma s) as [|t l IH]; simpl; [constructor|].
  inversion H; subst.
  destruct (truthy (strip t)) eqn:E; simpl; auto.
  constructor; auto.
  repeat split; auto using mem_char_strip, strip_idem.
Qed.

Lemma kept_tags_fixed (l : list string) :
  Forall (fun t => mem_char comma t = false /\ strip t = t /\ truthy t = true) l ->
  map strip (filter (fun t => truthy (strip t)) l) = l.
Proof.
  induction 1 as [|t l (_ & Hs & Ht) _ IH]; simpl; auto.
  rewrite Hs, Ht. simpl. now rewrite Hs, IH.
Qed.

End TextFacts.

(** C7: tag normalization (split on comma, strip every segment, drop the empty
    ones, join with a comma) is idempotent on every string. *)
Theorem normalize_tags_idempotent (s : string) :
  Text.normalize_tags (Text.normalize_tags s) = Text.normalize_tags s.
Proof.
  unfold Text.normalize_tags at 2 3.
  pose proof (kept_tags_canonical s) as Hc.
  destruct (Text.kept_tags s) as [|t l] eqn:E.
  - reflexivity.
  - unfold Text.normalize_tags, Text.kept_tags. rewrite split_join.
    + now rewrite kept_tags_fixed.
    + discriminate.
    + eapply Forall_impl; [|exact Hc]. now intros a (H & _).
Qed.

(** ** Pattern matching with [LIKE] *)

Section LikeFacts.

Import Text.

Lemma like_percent_unfold (p s : string) :
  like (String "%" p) s =
  like p s || match s with
              | EmptyString => false
              | String _ s' => like (String "%" p) s'
              end.
Proof. destruct s; reflexivity. Qed.



Lemma like_percent_all (s : string) : like "%" s = true.
Proof.
  induction s as [|c s IH].
  - reflexivity.
  - rewrite like_percent_unfold, IH. apply orb_true_r.
Qed.




Lemma like_percent_percent (p s : string) :
  like (String "%" (String "%" p)) s = like (String "%" p) s.
Proof.
  induction s as [|c s IH]; rewrite (like_percent_unfold (String "%" p)).
  - apply orb_false_r.
  - rewrite IH, (like_percent_unfold p (String c s)).
    now rewrite <- orb_assoc, orb_diag.
Qed.

Lemma prefix_nocase_app (k : string) :
  forall mid post, lower mid = lower k -> prefix_nocase k (mid ++ post) = true.
Proof.
  induction k as [|c k IH]; intros mid post H; [reflexivity|].
  destruct mid as [|d mid]; [discriminate|].
  simpl in H. injection H as Hd Hk.
  simpl. now rewrite Hd, Ascii.eqb_refl, IH.
Qed.

Lemma substring_nocase_contains (k f : string) :
  substring_nocase k f -> contains_nocase k f = true.
Proof.
  intros (pre & mid & post & -> & H).
  induction pre as [|c pre IH].
  - simpl append. destruct (mid ++ post) eqn:E; simpl;
      rewrite <- ?E, prefix_nocase_app by assumption; reflexivity.
  - simpl. rewrite IH. apply orb_true_r.
Qed.

End LikeFacts.

(** ** Ordering and searching *)

Section SearchFacts.

Import Store.

Lemma insert_desc_perm (r : row) (l : list row) :
  Permutation (r :: l) (insert_desc r l).
Proof.
  induction l as [|x l IH]; simpl; auto.
  destruct (updated_at x <=? updated_at r)%nat; auto.
  rewrite perm_swap. now constructor.
Qed.

Lemma order_by_updated_desc_perm (l : list row) :
  Permutation l (order_by_updated_desc l).
Proof.
  induction l as [|r l IH]; simpl; auto.
  rewrite <- insert_desc_perm. now constructor.
Qed.

Lemma insert_desc_sorted (r : row) (l : list row) :
  StronglySorted newer_or_equal l ->
  StronglySorted newer_or_equal (insert_desc r l).
Proof.
  induction 1 as [|x l Hs IH Hx]; simpl.
  - repeat constructor.
  - destruct (updated_at x <=? updated_at r)%nat eqn:E.
    + apply Nat.leb_le in E.
      constructor; [now constructor|].
      constructor; [exact E|].
      eapply Forall_impl; [|exact Hx].
      unfold newer_or_equal. intros; lia.
    + apply Nat.leb_gt in E.
      constructor; [exact IH|].
      eapply Permutation_Forall; [apply insert_desc_perm|].
      constructor; [unfold newer_or_equal; lia | exact Hx].
Qed.

Lemma order_by_updated_desc_sorted (l : list row) :
  StronglySorted newer_or_equal (order_by_updated_desc l).
Proof.
  induction l as [|r l IH]; simpl.
  - constructor.
  - now apply insert_desc_sorted.
Qed.

Lemma Forall_firstn {A} (P : A -> Prop) (l : list A) :
  Forall P l -> forall n, Forall P (firstn n l).
Proof. induction 1; intros [|n]; simpl; constructor; auto. Qed.

Lemma StronglySorted_firstn {A} (R : A -> A -> Prop) (n : nat) (l : list A) :
  StronglySorted R l -> StronglySorted R (firstn n l).
Proof.
  intros H. revert n.
  induction H as [|x l Hs IH Hx]; intros [|n]; simpl; try constructor; auto.
  now apply Forall_firstn.
Qed.


Lemma where_like_percent (r : row) : where_like "%%" r = true.
Proof.
  unfold where_like.
  change "%%" with (String "%" "%").
  now rewrite like_percent_percent, like_percent_all.
Qed.

Lemma filter_all {A} (f : A -> bool) (l : list A) :
  (forall x, In x l -> f x = true) -> filter f l = l.
Proof.
  induction l as [|x l IH]; simpl; auto.
  intros H. rewrite (H x) by now left.
  f_equal. apply IH. intros; apply H. now right.
Qed.

Lemma search_ordered_all (db : t) (query : string) :
  Text.strip query = "" ->
  Permutation (rows db) (search_ordered db query).
Proof.
  intros E. unfold search_ordered. rewrite E.
  change ("%" ++ "" ++ "%") with "%%".
  rewrite filter_all by (intros; apply where_like_percent).
  apply order_by_updated_desc_perm.
Qed.


End SearchFacts.



(** C6: [db_search] of the empty keyword returns at most 200 rows, they are
    in descending order of [updated_at], and when the table has fewer than
    200 rows the answer is the summary of every row of the table. *)
Theorem search_empty_keyword (db : Store.t) :
  List.length (Store.db_search db "") <= 200
  /\ Store.db_search db "" = map Store.select_summary (Store.search_rows db "")
  /\ StronglySorted Store.newer_or_equal (Store.search_rows db "")
  /\ (List.length (Store.rows db) < 200 ->
      Permutation (Store.rows db) (Store.search_rows db "")
      /\ Permutation (map Store.select_summary (Store.rows db)) (Store.db_search db "")).
Proof.
  repeat split.
  - unfold Store.db_search, Store.search_rows.
    rewrite List.length_map. apply firstn_le_length.
  - apply StronglySorted_firstn, order_by_updated_desc_sorted.
  - unfold Store.search_rows.
    pose proof (search_ordered_all db "" eq_refl) as P.
    rewrite firstn_all2; [exact P|].
    rewrite <- (Permutation_length P). lia.
  - unfold Store.db_search, Store.search_rows.
    pose proof (search_ordered_all db "" eq_refl) as P.
    rewrite firstn_all2; [now apply Permutation_map|].
    rewrite <- (Permutation_length P). lia.
Qed.

(** C10: [%] and [_] in the keyword are wildcards of [LIKE], not literal
    characters: searching for [%] returns the rows that searching for the
    empty keyword returns, and a search for [%] or for [_] returns a record
    none of whose fields contains that character. *)
Theorem search_keyword_wildcards :
  (forall db : Store.t, Store.db_search db "%" = Store.db_search db "")
  /\ (exists (db : Store.t) (r : Store.row),
         In r (Store.rows db)
         /\ ~ Store.keyword_in_fields "%" r
         /\ In (Store.select_summary r) (Store.db_search db "%"))
  /\ (exists (db : Store.t) (r : Store.row),
         In r (Store.rows db)
         /\ ~ Store.keyword_in_fields "_" r
         /\ In (Store.select_summary r) (Store.db_search db "_")).
Proof.
  split; [|split].
  - intros db. unfold Store.db_search, Store.search_rows, Store.search_ordered.
    change ("%" ++ Text.strip "%" ++ "%") with (String "%" (String "%" "%")).
    change ("%" ++ Text.strip "" ++ "%") with "%%".
    rewrite (filter_all (Store.where_like "%%")) by (intros; apply where_like_percent).
    rewrite filter_all; [reflexivity|].
    intros r _. unfold Store.where_like.
    now rewrite like_percent_percent, like_percent_percent, like_percent_all.
  - pose (r := {| Store.id := 1; Store.title := "Bin Search"; Store.language := "py";
                  Store.tags := "algo,search"; Store.status := "draft";
                  Store.code := "def f(): pass"; Store.notes := Some "";
                  Store.created_at := 0; Store.updated_at := 0 |}).
    exists {| Store.rows := [r]; Store.seq := 1 |}, r.
    split; [now left|]. split; [|now left].
    intros [H|[H|[H|[H|H]]]]; apply substring_nocase_contains in H; discriminate H.
  - pose (r := {| Store.id := 1; Store.title := "Bin Search"; Store.language := "py";
                  Store.tags := "algo,search"; Store.status := "draft";
                  Store.code := "def f(): pass"; Store.notes := Some "";
                  Store.created_at := 0; Store.updated_at := 0 |}).
    exists {| Store.rows := [r]; Store.seq := 1 |}, r.
    split; [now left|]. split; [|now left].
    intros [H|[H|[H|[H|H]]]]; apply substring_nocase_contains in H; discriminate H.
Qed.

(** ** Rows and keys *)

Section StoreFacts.

Import Store.

Lemma max_id_bound (l : list row) (r : row) :
  In r l -> (id r <= fold_right Z.max 0 (map id l))%Z.
Proof.
  induction l as [|x l IH]; simpl; [tauto|].
  intros [->|H]; [lia|]. specialize (IH H). lia.
Qed.

Lemma next_rowid_fresh (db : t) (r : row) :
  In r (rows db) -> (id r < next_rowid db)%Z.
Proof. intros H. apply max_id_bound in H. unfold next_rowid. lia. Qed.

Lemma next_rowid_positive (db : t) : (0 < next_rowid db)%Z.
Proof.
  unfold next_rowid.
  assert (0 <= fold_right Z.max 0 (map id (rows db)))%Z
    by (induction (rows db); simpl; lia).
  lia.
Qed.

Lemma find_last {A} (f : A -> bool) (l : list A) (x : A) :
  (forall y, In y l -> f y = false) -> f x = true ->
  find f (l ++ [x])%list = Some x.
Proof.
  intros Hl Hx. induction l as [|y l IH]; simpl.
  - now rewrite Hx.
  - rewrite (Hl y) by now left. apply IH. intros; apply Hl. now right.
Qed.

Lemma lookup_insert (db : t) (now : timestamp)
    (t0 l tg s c : string) (n : option string) :
  lookup (snd (db_insert db now t0 l tg s c n)) (fst (db_insert db now t0 l tg s c n)) =
  Some {| id := next_rowid db; title := t0; language := l; tags := tg; status := s;
          code := c; notes := n; created_at := now; updated_at := now |}.
Proof.
  unfold lookup, db_insert. simpl.
  apply find_last.
  - intros y Hy. apply next_rowid_fresh in Hy. simpl. lia.
  - simpl. apply Z.eqb_refl.
Qed.

Lemma db_get_insert (db : t) (now : timestamp)
    (t0 l tg s c : string) (n : option string) :
  db_get (snd (db_insert db now t0 l tg s c n)) (fst (db_insert db now t0 l tg s c n)) =
  Some (next_rowid db, t0, l, tg, s, c, ifnull n "").
Proof. unfold db_get. now rewrite lookup_insert. Qed.

Lemma lookup_update_same (db : t) (now : timestamp) (i : Z)
    (t0 l tg s c : string) (n : option string) (r : row) :
  lookup db i = Some r ->
  lookup (db_update db now i t0 l tg s c n) i =
  Some (set_columns now t0 l tg s c n r).
Proof.
  unfold lookup, db_update. simpl.
  induction (rows db) as [|x rs IH]; simpl; [discriminate|].
  destruct (id x =? i)%Z eqn:E; simpl.
  - rewrite E. now intros [= ->].
  - now rewrite E.
Qed.

Lemma lookup_update_other (db : t) (now : timestamp) (i j : Z)
    (t0 l tg s c : string) (n : option string) :
  j <> i ->
  lookup (db_update db now i t0 l tg s c n) j = lookup db j.
Proof.
  intros Hj. unfold lookup, db_update. simpl.
  induction (rows db) as [|x rs IH]; simpl; [reflexivity|].
  destruct (id x =? i)%Z eqn:E; simpl.
  - apply Z.eqb_eq in E.
    destruct (id x =? j)%Z eqn:E'; [apply Z.eqb_eq in E'; congruence|exact IH].
  - now rewrite IH.
Qed.

Lemma map_id_update (f : row -> row) (g : row -> bool) (l : list row) :
  (forall r, id (f r) = id r) ->
  map id (map (fun r => if g r then f r else r) l) = map id l.
Proof.
  intros H. induction l as [|x l IH]; simpl; auto.
  rewrite IH. destruct (g x); now rewrite ?H.
Qed.

Lemma NoDup_map_filter {A B} (f : A -> B) (g : A -> bool) (l : list A) :
  NoDup (map f l) -> NoDup (map f (filter g l)).
Proof.
  induction l as [|x l IH]; simpl; auto.
  intros H. inversion H as [|? ? Hx Hl]; subst.
  destruct (g x); simpl; auto.
  constructor; auto.
  intros Hin. apply Hx.
  apply in_map_iff in Hin as (y & Hy & Hin).
  apply in_map_iff. exists y. split; auto.
  apply filter_In in Hin. tauto.
Qed.

Lemma find_In {A} (f : A -> bool) (l : list A) (x : A) :
  find f l = Some x -> In x l.
Proof. intros H. now apply find_some in H. Qed.

(** Every statement keeps the invariants of the data model when the clock
    has not gone back. *)
Lemma execute_consistent (db : t) (last now : timestamp) (st : statement) :
  consistent db last -> last <= now -> consistent (execute db now st) now.
Proof.
  intros (Hnd & Hall) Hle.
  destruct st as [t0 l tg s c n | i t0 l tg s c n | i]; simpl; split; simpl.
  - rewrite map_app. simpl.
    apply NoDup_app; [exact Hnd | repeat constructor; simpl; tauto |].
    intros x Hx [<-|[]].
    apply in_map_iff in Hx as (r & Hr & Hin).
    apply next_rowid_fresh in Hin. lia.
  - apply Forall_app. split.
    + rewrite Forall_forall in *. intros r Hr.
      pose proof (Hall r Hr). pose proof (next_rowid_fresh db r Hr).
      simpl. lia.
    + constructor; [|constructor]. simpl.
      pose proof (next_rowid_positive db). lia.
  - rewrite map_id_update; auto.
  - rewrite Forall_forall in *. intros r Hr.
    apply in_map_iff in Hr as (x & <- & Hx).
    pose proof (Hall x Hx).
    destruct (id x =? i)%Z; simpl; lia.
  - now apply NoDup_map_filter.
  - rewrite Forall_forall in *. intros r Hr.
    apply filter_In in Hr as (Hr & _).
    pose proof (Hall r Hr). lia.
Qed.

Lemma built_consistent (db : t) (last : timestamp) :
  built db last -> consistent db last.
Proof.
  induction 1 as [|db last now st _ IH Hle].
  - split; constructor.
  - now apply execute_consistent with last.
Qed.

Lemma built_updated_before (db : t) (last : timestamp) (i : Z) (r : row) :
  built db last -> lookup db i = Some r ->
  created_at r <= updated_at r /\ updated_at r <= last.
Proof.
  intros Hb Hl. apply built_consistent in Hb as (_ & Hall).
  rewrite Forall_forall in Hall.
  apply find_In in Hl. apply Hall in Hl. tauto.
Qed.

End StoreFacts.

(** C5: in a table that the program has built, with the clock at the update
    not behind its reading at the latest statement, [db_update] of the key of
    an existing record leaves a record with that key whose six editable
    fields are the arguments, whose [id] and [created_at] are the old ones
    and whose [updated_at] is the clock's reading, which is not before the
    old [updated_at]; the records of other keys and the number of rows stay
    as they were. *)
Theorem update_replaces_editable_fields
    (db : Store.t) (last now : Store.timestamp) (i : Z)
    (title language tags status code : string) (notes : option string)
    (r : Store.row)
    (Hbuilt : Store.built db last)
    (Hclock : last <= now)
    (Hexists : Store.lookup db i = Some r) :
  let db' := Store.db_update db now i title language tags status code notes in
  exists r',
    Store.lookup db' i = Some r'
    /\ Store.title r' = title /\ Store.language r' = language
    /\ Store.tags r' = tags /\ Store.status r' = status
    /\ Store.code r' = code /\ Store.notes r' = notes
    /\ Store.id r' = Store.id r
    /\ Store.created_at r' = Store.created_at r
    /\ Store.updated_at r' = now
    /\ Store.updated_at r <= Store.updated_at r'
    /\ (forall j, j <> i -> Store.lookup db' j = Store.lookup db j)
    /\ List.length (Store.rows db') = List.length (Store.rows db).
Proof.
  intros db'. exists (Store.set_columns now title language tags status code notes r).
  pose proof (built_updated_before db last i r Hbuilt Hexists) as (_ & Hup).
  split; [now apply lookup_update_same|].
  repeat (split; [reflexivity|]).
  split; [simpl; lia|].
  split.
  - intros j Hj. now apply lookup_update_other.
  - unfold db', Store.db_update. simpl. apply List.length_map.
Qed.

(** ** Running the methods *)

Section MethodFacts.

Import Store App.

Lemma rstrip_newline (s : string) : Text.rstrip (text_get s) = Text.rstrip s.
Proof.
  unfold text_get.
  induction s as [|c s IH]; [reflexivity|].
  change (String c s ++ String "010" "") with (String c (s ++ String "010" "")).
  simpl. now rewrite IH.
Qed.

Lemma strip_text_get (s : string) : Text.strip (text_get s) = Text.strip s.
Proof. unfold Text.strip. now rewrite rstrip_newline. Qed.

Lemma truthy_true (s : string) : Text.truthy s = true <-> s <> "".
Proof. destruct s; simpl; split; congruence. Qed.

Lemma for_each_results_insert (rows : list summary) :
  forall w,
    for_each rows (fun r => write (results_insert_end r)) w =
    (Return tt,
     {| app := fold_left (fun a r => results_insert_end r a) rows (app w);
        db := db w; trace := trace w |}).
Proof.
  induction rows as [|r rows IH]; intros w.
  - destruct w; reflexivity.
  - simpl. unfold bind at 1. simpl. now rewrite IH.
Qed.

Lemma fold_results_insert (rows : list summary) :
  forall a,
    fold_left (fun a r => results_insert_end r a) rows a =
    {| selected_id := selected_id a; search_var := search_var a;
       title_var := title_var a; lang_var := lang_var a;
       status_var := status_var a; tags_var := tags_var a;
       code_text := code_text a; notes_text := notes_text a;
       results := (results a ++ rows)%list; selection := selection a |}.
Proof.
  induction rows as [|r rows IH]; intros a; simpl.
  - rewrite app_nil_r. destruct a; reflexivity.
  - rewrite IH. simpl. now rewrite <- app_assoc.
Qed.

Lemma refresh_results_run (w : world) :
  refresh_results w =
  (Return tt,
   {| app := with_results (db_search (db w) (search_var (app w))) (app w);
      db := db w;
      trace := (trace w ++ [CallSearch (search_var (app w))])%list |}).
Proof.
  unfold refresh_results, call_db_search, bind, write, read, emit. simpl.
  rewrite for_each_results_insert. simpl.
  now rewrite fold_results_insert.
Qed.

End MethodFacts.

Section SaveFacts.

Import Store App.

Variable now : timestamp.

Lemma save_snippet_rejected (w : world) :
  ~ required_present (app w) ->
  save_snippet now w =
  (Return tt,
   {| app := app w; db := db w;
      trace := (trace w ++
                [ShowError "Error" "Title, language, tags, and code are required."])%list |}).
Proof.
  intros H. unfold save_snippet, bind, read. simpl.
  rewrite strip_text_get.
  destruct (Text.truthy (Text.strip (title_var (app w)))) eqn:E1; [|reflexivity].
  destruct (Text.truthy (Text.strip (lang_var (app w)))) eqn:E2; [|reflexivity].
  destruct (Text.truthy (Text.strip (tags_var (app w)))) eqn:E3; [|reflexivity].
  destruct (Text.truthy (Text.strip (code_text (app w)))) eqn:E4; [|reflexivity].
  exfalso. apply H. unfold required_present.
  rewrite <- !truthy_true. auto.
Qed.

Lemma save_snippet_inserts (w : world) :
  required_present (app w) ->
  selected_id (app w) = None ->
  let a := app w in
  let ins := db_insert (db w) now
               (Text.strip (title_var a)) (Text.strip (lang_var a))
               (Text.normalize_tags (Text.strip (tags_var a)))
               (Text.strip (status_var a)) (Text.strip (code_text a))
               (Some (Text.strip (notes_text a))) in
  save_snippet now w =
  (Return tt,
   {| app := with_results (db_search (snd ins) (search_var a))
               (set_selected_id (Some (fst ins)) a);
      db := snd ins;
      trace := (trace w ++
                [CallInsert (Text.strip (title_var a)) (Text.strip (lang_var a))
                   (Text.normalize_tags (Text.strip (tags_var a)))
                   (Text.strip (status_var a)) (Text.strip (code_text a))
                   (Some (Text.strip (notes_text a)));
                 CallSearch (search_var a);
                 ShowInfo "Saved" "Snippet saved."])%list |}).
Proof.
  intros (H1 & H2 & H3 & H4) Hsel a ins.
  apply truthy_true in H1, H2, H3, H4.
  unfold save_snippet, bind, read. simpl.
  rewrite !strip_text_get, H1, H2, H3, H4. cbn [negb orb].
  rewrite Hsel. unfold write. cbn [app db trace].
  rewrite refresh_results_run. unfold showinfo, emit. cbn [app db trace].
  rewrite <- !app_assoc. reflexivity.
Qed.

Lemma save_snippet_updates (w : world) (i : Z) :
  required_present (app w) ->
  selected_id (app w) = Some i ->
  let a := app w in
  let db' := db_update (db w) now i
               (Text.strip (title_var a)) (Text.strip (lang_var a))
               (Text.normalize_tags (Text.strip (tags_var a)))
               (Text.strip (status_var a)) (Text.strip (code_text a))
               (Some (Text.strip (notes_text a))) in
  save_snippet now w =
  (Return tt,
   {| app := with_results (db_search db' (search_var a)) a;
      db := db';
      trace := (trace w ++
                [CallUpdate i (Text.strip (title_var a)) (Text.strip (lang_var a))
                   (Text.normalize_tags (Text.strip (tags_var a)))
                   (Text.strip (status_var a)) (Text.strip (code_text a))
                   (Some (Text.strip (notes_text a)));
                 CallSearch (search_var a);
                 ShowInfo "Saved" "Snippet saved."])%list |}).
Proof.
  intros (H1 & H2 & H3 & H4) Hsel a db'.
  apply truthy_true in H1, H2, H3, H4.
  unfold save_snippet, bind, read. simpl.
  rewrite !strip_text_get, H1, H2, H3, H4. cbn [negb orb].
  rewrite Hsel. unfold call_db_update, bind, emit. cbn [app db trace].
  rewrite refresh_results_run. unfold showinfo, emit. cbn [app db trace].
  rewrite <- !app_assoc. reflexivity.
Qed.

End SaveFacts.

(** C3: a save in which the stripped title, language, tags or code is empty
    shows the error dialog and does nothing else: the store, the session and
    the trace of store calls are as before, so no insert and no update took
    place.  With the four required fields present and the stripped notes
    empty the save goes through: one insert or one update with the empty
    notes, the refresh of the list, and the confirmation dialog. *)
Theorem save_requires_fields :
  (forall (now : Store.timestamp) (w : App.world),
      Text.strip (App.title_var (App.app w)) = ""
      \/ Text.strip (App.lang_var (App.app w)) = ""
      \/ Text.strip (App.tags_var (App.app w)) = ""
      \/ Text.strip (App.code_text (App.app w)) = "" ->
      App.save_snippet now w =
      (App.Return tt,
       {| App.app := App.app w; App.db := App.db w;
          App.trace :=
            (App.trace w ++
             [App.ShowError "Error" "Title, language, tags, and code are required."])%list |}))
  /\
  (forall (now : Store.timestamp) (w : App.world),
      App.required_present (App.app w) ->
      Text.strip (App.notes_text (App.app w)) = "" ->
      exists (w' : App.world) (call : App.event),
        App.save_snippet now w = (App.Return tt, w')
        /\ App.trace w' =
           (App.trace w ++
            [call; App.CallSearch (App.search_var (App.app w));
             App.ShowInfo "Saved" "Snippet saved."])%list
        /\ (call = App.CallInsert
                     (Text.strip (App.title_var (App.app w)))
                     (Text.strip (App.lang_var (App.app w)))
                     (Text.normalize_tags (Text.strip (App.tags_var (App.app w))))
                     (Text.strip (App.status_var (App.app w)))
                     (Text.strip (App.code_text (App.app w))) (Some "")
            \/ exists i,
                call = App.CallUpdate i
                         (Text.strip (App.title_var (App.app w)))
                         (Text.strip (App.lang_var (App.app w)))
                         (Text.normalize_tags (Text.strip (App.tags_var (App.app w))))
                         (Text.strip (App.status_var (App.app w)))
                         (Text.strip (App.code_text (App.app w))) (Some ""))).
Proof.
  split.
  - intros now w H. apply save_snippet_rejected.
    unfold App.required_present. tauto.
  - intros now w Hreq Hnotes.
    destruct (App.selected_id (App.app w)) as [i|] eqn:Hsel.
    + rewrite (save_snippet_updates now w i Hreq Hsel), Hnotes.
      eexists _, _. split; [reflexivity|]. split; [reflexivity|].
      right. now exists i.
    + rewrite (save_snippet_inserts now w Hreq Hsel), Hnotes.
      eexists _, _. split; [reflexivity|]. split; [reflexivity|].
      now left.
Qed.

(** C4: a save whose required fields are present, started in
    [{no selection}], calls [db_insert] with the stripped fields and the
    normalized tags and ends in [{editing i}] for the key [i] that the insert
    returned; started in [{editing i}] it calls [db_update] with the key [i]
    and ends in [{editing i}]. *)
Theorem save_inserts_or_updates (now : Store.timestamp) (w : App.world)
    (Hvalid : App.required_present (App.app w)) :
  let a := App.app w in
  let title := Text.strip (App.title_var a) in
  let language := Text.strip (App.lang_var a) in
  let tags := Text.normalize_tags (Text.strip (App.tags_var a)) in
  let status := Text.strip (App.status_var a) in
  let code := Text.strip (App.code_text a) in
  let notes := Some (Text.strip (App.notes_text a)) in
  (App.no_selection a ->
   exists w',
     App.save_snippet now w = (App.Return tt, w')
     /\ App.db w' = snd (Store.db_insert (App.db w) now title language tags status code notes)
     /\ App.editing
          (fst (Store.db_insert (App.db w) now title language tags status code notes))
          (App.app w')
     /\ App.trace w' =
        (App.trace w ++
         [App.CallInsert title language tags status code notes;
          App.CallSearch (App.search_var a);
          App.ShowInfo "Saved" "Snippet saved."])%list)
  /\
  (forall i,
      App.editing i a ->
      exists w',
        App.save_snippet now w = (App.Return tt, w')
        /\ App.db w' = Store.db_update (App.db w) now i title language tags status code notes
        /\ App.editing i (App.app w')
        /\ App.trace w' =
           (App.trace w ++
            [App.CallUpdate i title language tags status code notes;
             App.CallSearch (App.search_var a);
             App.ShowInfo "Saved" "Snippet saved."])%list).
Proof.
  intros a title language tags status code notes. split.
  - intros Hsel. rewrite (save_snippet_inserts now w Hvalid Hsel).
    eexists. split; [reflexivity|]. repeat split.
  - intros i Hsel. rewrite (save_snippet_updates now w i Hvalid Hsel).
    eexists. split; [reflexivity|]. repeat split. exact Hsel.
Qed.

(** The store keeps the tags it is given: the round trip of the claim
    through [db_insert] and [db_get] alone returns the raw text. *)
Lemma insert_get_raw_tags_counterexample :
  option_map Store.full_tags
    (Store.db_get
       (snd (Store.db_insert Store.empty 0 "Bin Search" "py" "a, b , c" "draft"
               "def f(): pass" (Some "")))
       (fst (Store.db_insert Store.empty 0 "Bin Search" "py" "a, b , c" "draft"
               "def f(): pass" (Some ""))))
  <> Some "a,b,c".
Proof. vm_compute. discriminate. Qed.

(** C2, amended: [db_get] of the key that [db_insert] returned yields the
    columns exactly as they were passed, the tags included (and the empty
    string for null notes).  The normal form comes from the session: a save
    from [{no selection}] whose tags field is ["a, b , c"], the other
    required fields present, stores a record under the new key whose tags
    are ["a,b,c"]. *)
Theorem tags_round_trip :
  (forall (db : Store.t) (now : Store.timestamp)
          (t l tags s c : string) (n : option string),
      Store.db_get (snd (Store.db_insert db now t l tags s c n))
                   (fst (Store.db_insert db now t l tags s c n)) =
      Some (fst (Store.db_insert db now t l tags s c n),
            t, l, tags, s, c, Store.ifnull n ""))
  /\
  (forall (now : Store.timestamp) (w : App.world),
      App.no_selection (App.app w) ->
      App.tags_var (App.app w) = "a, b , c" ->
      Text.strip (App.title_var (App.app w)) <> "" ->
      Text.strip (App.lang_var (App.app w)) <> "" ->
      Text.strip (App.code_text (App.app w)) <> "" ->
      exists (w' : App.world) (i : Z),
        App.save_snippet now w = (App.Return tt, w')
        /\ App.editing i (App.app w')
        /\ option_map Store.full_tags (Store.db_get (App.db w') i) = Some "a,b,c").
Proof.
  split.
  - intros. apply db_get_insert.
  - intros now w Hsel Htags Ht Hl Hc.
    assert (App.required_present (App.app w)) as Hreq.
    { unfold App.required_present. rewrite Htags. repeat split; auto. discriminate. }
    rewrite (save_snippet_inserts now w Hreq Hsel).
    eexists _, _. split; [reflexivity|]. split; [reflexivity|].
    cbn [App.db]. rewrite db_get_insert, Htags. reflexivity.
Qed.

(** C8: when the selected item's id has no record in the store, [on_select]
    ends with the exception that [row[0]] raises on [None]; the session
    keeps every value it had and the store is untouched. *)
Theorem select_missing_record (w : App.world) (item : nat) (rest : list nat)
    (values : Store.summary)
    (Hsel : App.selection (App.app w) = item :: rest)
    (Hitem : nth_error (App.results (App.app w)) item = Some values)
    (Hmissing : Store.db_get (App.db w) (Store.summary_id values) = None) :
  App.on_select w =
  (App.Raise App.TypeError,
   {| App.app := App.app w; App.db := App.db w;
      App.trace := (App.trace w ++ [App.CallGet (Store.summary_id values)])%list |}).
Proof.
  unfold App.on_select, App.bind, App.read. cbn beta iota.
  rewrite Hsel. unfold App.item_id, App.bind, App.read. cbn beta iota.
  rewrite Hitem. unfold App.ret, App.call_db_get, App.bind, App.emit.
  cbn [App.app App.db App.trace]. rewrite Hmissing. reflexivity.
Qed.

(** After [new_snippet] the language and the status are not empty. *)
Lemma new_snippet_defaults_counterexample :
  let w := {| App.app :=
                {| App.selected_id := Some 1%Z; App.search_var := "";
                   App.title_var := "Bin Search"; App.lang_var := "rust";
                   App.status_var := "prod"; App.tags_var := "algo,search";
                   App.code_text := "fn f() {}"; App.notes_text := "";
                   App.results := []; App.selection := [] |};
              App.db := Store.empty; App.trace := [] |} in
  let a' := App.app (snd (App.new_snippet w)) in
  ~ (App.title_var a' = "" /\ App.lang_var a' = "" /\ App.status_var a' = ""
     /\ App.tags_var a' = "" /\ App.code_text a' = "" /\ App.notes_text a' = "").
Proof. cbv. intros (_ & H & _). discriminate H. Qed.

(** C9, amended: from any state [new_snippet] leads to [{no selection}],
    empties the title, the tags, the code and the notes, and sets the
    language to ["py"] and the status to ["draft"]; the search box, the
    result list, the store and the trace are as before. *)
Theorem new_snippet_resets (w : App.world) :
  App.new_snippet w =
  (App.Return tt,
   {| App.app :=
        {| App.selected_id := None; App.search_var := App.search_var (App.app w);
           App.title_var := ""; App.lang_var := "py";
           App.status_var := "draft"; App.tags_var := "";
           App.code_text := ""; App.notes_text := "";
           App.results := App.results (App.app w);
           App.selection := App.selection (App.app w) |};
      App.db := App.db w; App.trace := App.trace w |})
  /\ App.no_selection (App.app (snd (App.new_snippet w))).
Proof. split; reflexivity. Qed.

(** ** The theorems at the sample data *)

Example sample_store_rows :
  Store.rows Sample.store = [Sample.bin_search; Sample.quick_sort].
Proof. reflexivity. Qed.

Example sample_search_algo :
  Store.db_search Sample.store "ALGO" =
  [(2%Z, "Quick Sort", "c", "algo,sort", "tested");
   (1%Z, "Bin Search", "py", "algo,search", "draft")].
Proof. reflexivity. Qed.

Example sample_select_existing :
  App.on_select
    {| App.app := App.app Sample.stale_list; App.db := Sample.store; App.trace := [] |} =
  (App.Return tt,
   {| App.app :=
        {| App.selected_id := Some 1%Z; App.search_var := "algo";
           App.title_var := "Bin Search"; App.lang_var := "py";
           App.status_var := "draft"; App.tags_var := "algo,search";
           App.code_text := "def f(): pass"; App.notes_text := "";
           App.results := App.results (App.app Sample.stale_list);
           App.selection := [1] |};
      App.db := Sample.store;
      App.trace := [App.CallGet 1] |}).
Proof. reflexivity. Qed.

Example sample_save_scenario :
  let w := {| App.app := App.set_tags_var " algo, search " (App.set_title_var "Heap" Sample.form);
              App.db := Sample.store; App.trace := [] |} in
  option_map Store.tags (Store.lookup (App.db (snd (App.save_snippet 30 w))) 3) =
  Some "algo,search".
Proof. reflexivity. Qed.

Example sample_delete_get :
  Store.db_get (Store.db_delete Sample.store 1) 1 = None.
Proof. reflexivity. Qed.


Lemma tags_round_trip_witness :
  exists (w' : App.world) (i : Z),
    App.save_snippet 30 Sample.new_form = (App.Return tt, w')
    /\ App.editing i (App.app w')
    /\ option_map Store.full_tags (Store.db_get (App.db w') i) = Some "a,b,c".
Proof.
  apply (proj2 tags_round_trip 30 Sample.new_form).
  - reflexivity.
  - reflexivity.
  - vm_compute. discriminate.
  - vm_compute. discriminate.
  - vm_compute. discriminate.
Defined.

Lemma save_requires_fields_witness :
  Text.strip (App.title_var (App.app Sample.blank_title_form)) = ""
  /\ App.save_snippet 30 Sample.blank_title_form =
     (App.Return tt,
      {| App.app := App.app Sample.blank_title_form;
         App.db := Sample.store;
         App.trace :=
           [App.ShowError "Error" "Title, language, tags, and code are required."] |})
  /\ App.required_present (App.app Sample.new_form)
  /\ Text.strip (App.notes_text (App.app Sample.new_form)) = ""
  /\ exists (w' : App.world) (call : App.event),
       App.save_snippet 30 Sample.new_form = (App.Return tt, w')
       /\ App.trace w' =
          [call; App.CallSearch "algo"; App.ShowInfo "Saved" "Snippet saved."]
       /\ (call = App.CallInsert "Merge Sort" "py" "a,b,c" "draft" "def ms(xs): pass"
                    (Some "")
           \/ exists i,
               call = App.CallUpdate i "Merge Sort" "py" "a,b,c" "draft"
                        "def ms(xs): pass" (Some "")).
Proof.
  assert (App.required_present (App.app Sample.new_form)) as Hreq
    by (vm_compute; repeat split; discriminate).
  split; [reflexivity|]. split.
  - apply (proj1 save_requires_fields 30 Sample.blank_title_form).
    left. reflexivity.
  - split; [exact Hreq|]. split; [reflexivity|].
    exact (proj2 save_requires_fields 30 Sample.new_form Hreq eq_refl).
Defined.

Lemma save_inserts_or_updates_witness :
  App.required_present (App.app Sample.edit_form)
  /\ App.no_selection (App.app Sample.new_form)
  /\ (exists w',
        App.save_snippet 30 Sample.new_form = (App.Return tt, w')
        /\ App.db w' =
           snd (Store.db_insert Sample.store 30 "Merge Sort" "py" "a,b,c" "draft"
                  "def ms(xs): pass" (Some ""))
        /\ App.editing 3 (App.app w')
        /\ App.trace w' =
           [App.CallInsert "Merge Sort" "py" "a,b,c" "draft" "def ms(xs): pass" (Some "");
            App.CallSearch "algo";
            App.ShowInfo "Saved" "Snippet saved."])
  /\ App.editing 1 (App.app Sample.edit_form)
  /\ exists w',
       App.save_snippet 30 Sample.edit_form = (App.Return tt, w')
       /\ App.db w' =
          Store.db_update Sample.store 30 1 "Merge Sort" "py" "a,b,c" "draft"
            "def ms(xs): pass" (Some "")
       /\ App.editing 1 (App.app w')
       /\ App.trace w' =
          [App.CallUpdate 1 "Merge Sort" "py" "a,b,c" "draft" "def ms(xs): pass" (Some "");
           App.CallSearch "algo";
           App.ShowInfo "Saved" "Snippet saved."].
Proof.
  assert (App.required_present (App.app Sample.edit_form)) as Hreq
    by (vm_compute; repeat split; discriminate).
  split; [exact Hreq|]. split; [reflexivity|]. split.
  - exact (proj1 (save_inserts_or_updates 30 Sample.new_form Hreq) eq_refl).
  - split; [reflexivity|].
    exact (proj2 (save_inserts_or_updates 30 Sample.edit_form Hreq) 1%Z eq_refl).
Defined.

Lemma update_replaces_editable_fields_witness :
  Store.built Sample.store 20
  /\ Store.lookup Sample.store 1 = Some Sample.bin_search
  /\ exists r',
       Store.lookup
         (Store.db_update Sample.store 30 1 "Binary Search" "py" "algo" "tested"
            "def g(): pass" None) 1 = Some r'
       /\ Store.title r' = "Binary Search" /\ Store.language r' = "py"
       /\ Store.tags r' = "algo" /\ Store.status r' = "tested"
       /\ Store.code r' = "def g(): pass" /\ Store.notes r' = None
       /\ Store.id r' = 1%Z
       /\ Store.created_at r' = 10
       /\ Store.updated_at r' = 30
       /\ 10 <= Store.updated_at r'
       /\ (forall j, j <> 1%Z ->
           Store.lookup
             (Store.db_update Sample.store 30 1 "Binary Search" "py" "algo" "tested"
                "def g(): pass" None) j = Store.lookup Sample.store j)
       /\ List.length
            (Store.rows
               (Store.db_update Sample.store 30 1 "Binary Search" "py" "algo" "tested"
                  "def g(): pass" None)) = 2.
Proof.
  assert (Store.built Sample.store 20) as Hbuilt.
  { apply (Store.built_step _ 10 20
             (Store.Insert "Quick Sort" "c" "algo,sort" "tested"
                "void qs(int *a, int n);" None)); [|lia].
    apply (Store.built_step Store.empty 0 10
             (Store.Insert "Bin Search" "py" "algo,search" "draft"
                "def f(): pass" (Some ""))); [|lia].
    apply Store.built_empty. }
  assert (20 <= 30) as Hclock by lia.
  split; [exact Hbuilt|]. split; [reflexivity|].
  exact (update_replaces_editable_fields Sample.store 20 30 1 "Binary Search" "py" "algo"
           "tested" "def g(): pass" None Sample.bin_search Hbuilt Hclock eq_refl).
Defined.

Lemma search_empty_keyword_witness :
  List.length (Store.rows Sample.store) < 200
  /\ Permutation (Store.rows Sample.store) (Store.search_rows Sample.store "")
  /\ Permutation (map Store.select_summary (Store.rows Sample.store))
       (Store.db_search Sample.store "").
Proof.
  assert (List.length (Store.rows Sample.store) < 200) as Hlen by (simpl; lia).
  split; [exact Hlen|].
  exact (proj2 (proj2 (proj2 (search_empty_keyword Sample.store))) Hlen).
Defined.

Lemma select_missing_record_witness :
  Store.db_get (App.db Sample.stale_list) 1 = None
  /\ App.on_select Sample.stale_list =
     (App.Raise App.TypeError,
      {| App.app := App.app Sample.stale_list; App.db := App.db Sample.stale_list;
         App.trace := [App.CallGet 1] |}).
Proof.
  split; [reflexivity|].
  exact (select_missing_record Sample.stale_list 1 []
           (Store.select_summary Sample.bin_search) eq_refl eq_refl eq_refl).
Defined.

(** * Further properties of the store *)

Section MoreStoreFacts.

Import Store.

Lemma db_get_none (db : t) (i : Z) : db_get db i = None <-> lookup db i = None.
Proof. unfold db_get. destruct (lookup db i); simpl; split; congruence. Qed.

Lemma find_filter_other (i j : Z) (l : list row) :
  j <> i ->
  find (fun r => id r =? j)%Z (filter (fun r => negb (id r =? i)%Z) l) =
  find (fun r => id r =? j)%Z l.
Proof.
  intros Hj. induction l as [|x l IH]; simpl; auto.
  destruct (id x =? i)%Z eqn:E; simpl.
  - apply Z.eqb_eq in E.
    destruct (id x =? j)%Z eqn:E'; [apply Z.eqb_eq in E'; congruence|exact IH].
  - now rewrite IH.
Qed.

Lemma find_filter_same (i : Z) (l : list row) :
  find (fun r => id r =? i)%Z (filter (fun r => negb (id r =? i)%Z) l) = None.
Proof.
  induction l as [|x l IH]; simpl; auto.
  destruct (id x =? i)%Z eqn:E; simpl; auto. now rewrite E.
Qed.

Lemma filter_length_le {A} (f : A -> bool) (l : list A) :
  List.length (filter f l) <= List.length l.
Proof. induction l as [|x l IH]; simpl; [lia|]. destruct (f x); simpl; lia. Qed.

Lemma find_app_one {A} (f : A -> bool) (l : list A) (x : A) :
  find f (l ++ [x])%list =
  match find f l with
  | Some y => Some y
  | None => if f x then Some x else None
  end.
Proof. induction l as [|y l IH]; simpl; [reflexivity|]. now destruct (f y). Qed.

Lemma seq_le_next_rowid (db : t) : (seq db < next_rowid db)%Z.
Proof. unfold next_rowid. lia. Qed.

Lemma execute_seq_mono (db : t) (now : timestamp) (st : statement) :
  (seq db <= seq (execute db now st))%Z.
Proof.
  destruct st; simpl; try lia.
  pose proof (seq_le_next_rowid db). lia.
Qed.

Lemma execute_all_seq_mono (l : list (timestamp * statement)) :
  forall db, (seq db <= seq (execute_all db l))%Z.
Proof.
  unfold execute_all.
  induction l as [|ts l IH]; intros db; simpl; [lia|].
  specialize (IH (execute db (fst ts) (snd ts))).
  pose proof (execute_seq_mono db (fst ts) (snd ts)).
  lia.
Qed.

Lemma find_unique (l : list row) (r : row) :
  NoDup (map id l) -> In r l -> find (fun x => id x =? id r)%Z l = Some r.
Proof.
  induction l as [|x l IH]; simpl; [tauto|].
  intros Hnd Hin. inversion Hnd as [|? ? Hx Hl]; subst.
  destruct Hin as [->|Hin].
  - now rewrite Z.eqb_refl.
  - destruct (id x =? id r)%Z eqn:E; [|now apply IH].
    apply Z.eqb_eq in E. exfalso. apply Hx. rewrite E. now apply in_map.
Qed.

End MoreStoreFacts.

(** X1: after [db_delete] of a key, [db_get] of that key finds nothing,
    [db_get] of every other key returns what it returned before, and the
    table has not grown. *)
Theorem delete_removes_only_that_record (db : Store.t) (i : Z) :
  Store.db_get (Store.db_delete db i) i = None
  /\ (forall j, j <> i -> Store.db_get (Store.db_delete db i) j = Store.db_get db j)
  /\ List.length (Store.rows (Store.db_delete db i)) <= List.length (Store.rows db).
Proof.
  unfold Store.db_get, Store.lookup, Store.db_delete. simpl.
  split; [now rewrite find_filter_same|].
  split; [intros j Hj; now rewrite find_filter_other|].
  apply filter_length_le.
Qed.

(** X2: [db_delete] of a key that no record has leaves the table as it is. *)
Theorem delete_missing_changes_nothing (db : Store.t) (i : Z) :
  Store.db_get db i = None -> Store.db_delete db i = db.
Proof.
  intros H. apply db_get_none in H. unfold Store.lookup in H.
  destruct db as [rows seq]. unfold Store.db_delete. simpl in *. f_equal.
  apply filter_all. intros x Hx.
  now rewrite (find_none _ _ H x Hx).
Qed.

Lemma db_update_absent (db : Store.t) (now : Store.timestamp) (i : Z)
    (title language tags status code : string) (notes : option string) :
  Store.lookup db i = None ->
  Store.db_update db now i title language tags status code notes = db.
Proof.
  intros H. unfold Store.lookup in H.
  destruct db as [rows seq]. unfold Store.db_update. simpl in *. f_equal.
  rewrite <- (map_id rows) at 2. apply map_ext_in. intros x Hx.
  now rewrite (find_none _ _ H x Hx).
Qed.

(** X3: [db_update] of a key that no record has leaves the table as it is:
    no row is created and no error is reported. *)
Theorem update_missing_changes_nothing (db : Store.t) (now : Store.timestamp) (i : Z)
    (title language tags status code : string) (notes : option string) :
  Store.db_get db i = None ->
  Store.db_update db now i title language tags status code notes = db.
Proof. intros H. apply db_get_none in H. now apply db_update_absent. Qed.

(** X4: the key that [db_insert] returns was not in use before the insert;
    [db_get] of every other key returns what it returned before, and the
    table has one row more. *)
Theorem insert_adds_one_fresh_record (db : Store.t) (now : Store.timestamp)
    (title language tags status code : string) (notes : option string) :
  let i := fst (Store.db_insert db now title language tags status code notes) in
  let db' := snd (Store.db_insert db now title language tags status code notes) in
  Store.db_get db i = None
  /\ (forall j, j <> i -> Store.db_get db' j = Store.db_get db j)
  /\ List.length (Store.rows db') = S (List.length (Store.rows db)).
Proof.
  intros i db'. unfold i, db', Store.db_get, Store.lookup, Store.db_insert. simpl.
  split; [|split].
  - destruct (find _ (Store.rows db)) as [r|] eqn:E; [|reflexivity].
    apply find_some in E as (Hin & Hid).
    apply next_rowid_fresh in Hin. apply Z.eqb_eq in Hid. lia.
  - intros j Hj. rewrite find_app_one. simpl.
    destruct (find _ (Store.rows db)); [reflexivity|].
    destruct (Store.next_rowid db =? j)%Z eqn:E; [|reflexivity].
    apply Z.eqb_eq in E. congruence.
  - rewrite length_app. simpl. lia.
Qed.

(** X5: keys are never reused: whatever statements (inserts, updates,
    deletes) run after an insert, a later insert returns a larger key. *)
Theorem insert_keys_increase (db : Store.t) (now now' : Store.timestamp)
    (t l g s c t' l' g' s' c' : string) (n n' : option string)
    (between : list (Store.timestamp * Store.statement)) :
  let first := Store.db_insert db now t l g s c n in
  let later := Store.db_insert (execute_all (snd first) between) now' t' l' g' s' c' n' in
  (fst first < fst later)%Z.
Proof.
  intros first later. unfold first, later, Store.db_insert. simpl.
  pose proof (execute_all_seq_mono between
                (snd (Store.db_insert db now t l g s c n))) as H.
  unfold Store.db_insert in H. simpl in H.
  match goal with |- (_ < Store.next_rowid ?d)%Z =>
    pose proof (seq_le_next_rowid d) end.
  lia.
Qed.

(** X6: in every table that the program builds while the clock does not run
    backwards, keys are positive and pairwise different, and no row has a
    [created_at] after its [updated_at]. *)
Theorem built_table_invariants (db : Store.t) (last : Store.timestamp)
    (Hbuilt : Store.built db last) :
  NoDup (map Store.id (Store.rows db))
  /\ (forall r, In r (Store.rows db) ->
        (0 < Store.id r)%Z /\ Store.created_at r <= Store.updated_at r).
Proof.
  apply built_consistent in Hbuilt as (Hnd & Hall).
  split; [exact Hnd|].
  intros r Hr. rewrite Forall_forall in Hall. apply Hall in Hr. lia.
Qed.

Lemma lookup_stored_row (db : Store.t) (last : Store.timestamp) (r : Store.row) :
  Store.built db last -> In r (Store.rows db) ->
  Store.lookup db (Store.id r) = Some r.
Proof.
  intros Hbuilt Hin. apply built_consistent in Hbuilt as (Hnd & _).
  unfold Store.lookup. now apply find_unique.
Qed.

(** X7: in such a table [db_get] of the key of any stored row returns the
    columns of that very row. *)
Theorem get_returns_stored_row (db : Store.t) (last : Store.timestamp) (r : Store.row)
    (Hbuilt : Store.built db last)
    (Hin : In r (Store.rows db)) :
  Store.db_get db (Store.id r) = Some (Store.select_full r).
Proof.
  unfold Store.db_get. now rewrite (lookup_stored_row db last r Hbuilt Hin).
Qed.

(** * Further properties of the search *)

Section MoreSearchFacts.

Import Text Store.





Lemma search_rows_in (db : t) (query : string) (r : row) :
  In r (search_rows db query) ->
  In r (rows db) /\ where_like ("%" ++ strip query ++ "%") r = true.
Proof.
  unfold search_rows, search_ordered. intros H.
  apply filter_In.
  eapply Permutation_in; [symmetry; apply order_by_updated_desc_perm|].
  rewrite <- (firstn_skipn 200). apply in_or_app. left. exact H.
Qed.

Lemma NoDup_firstn {A} (n : nat) (l : list A) : NoDup l -> NoDup (firstn n l).
Proof.
  intros H. rewrite <- (firstn_skipn n l) in H.
  now apply NoDup_app_remove_r in H.
Qed.

Lemma search_rows_ids_NoDup (db : t) (query : string) :
  NoDup (map id (rows db)) -> NoDup (map id (search_rows db query)).
Proof.
  intros H. unfold search_rows, search_ordered.
  rewrite <- firstn_map. apply NoDup_firstn.
  eapply Permutation_NoDup;
    [apply Permutation_map, order_by_updated_desc_perm|].
  now apply NoDup_map_filter.
Qed.

Lemma tolower_idem (c : ascii) : tolower (tolower c) = tolower c.
Proof. destruct c as [[] [] [] [] [] [] [] []]; reflexivity. Qed.

Lemma tolower_percent (c : ascii) : Ascii.eqb (tolower c) "%" = Ascii.eqb c "%".
Proof. destruct c as [[] [] [] [] [] [] [] []]; reflexivity. Qed.

Lemma tolower_underscore (c : ascii) : Ascii.eqb (tolower c) "_" = Ascii.eqb c "_".
Proof. destruct c as [[] [] [] [] [] [] [] []]; reflexivity. Qed.

Lemma is_space_tolower (c : ascii) : is_space (tolower c) = is_space c.
Proof. destruct c as [[] [] [] [] [] [] [] []]; reflexivity. Qed.

Lemma lower_app (a b : string) : lower (a ++ b) = lower a ++ lower b.
Proof. induction a as [|c a IH]; simpl; congruence. Qed.

Lemma lstrip_lower (s : string) : lstrip (lower s) = lower (lstrip s).
Proof.
  induction s as [|c s IH]; simpl; auto.
  rewrite is_space_tolower. now destruct (is_space c).
Qed.

Lemma rstrip_lower (s : string) : rstrip (lower s) = lower (rstrip s).
Proof.
  induction s as [|c s IH]; simpl; auto.
  rewrite IH, is_space_tolower.
  destruct (rstrip s); simpl; auto. now destruct (is_space c).
Qed.

Lemma strip_lower (s : string) : strip (lower s) = lower (strip s).
Proof. unfold strip. now rewrite rstrip_lower, lstrip_lower. Qed.

(** [LIKE] does not see the case of the letters of its pattern. *)
Lemma like_lower (p : string) : forall s, like (lower p) s = like p s.
Proof.
  induction p as [|c p IH]; intros s; [reflexivity|].
  change (lower (String c p)) with (String (tolower c) (lower p)).
  destruct (Ascii.eqb c "%") eqn:E1.
  - apply Ascii.eqb_eq in E1. subst c.
    change (tolower "%") with "%"%char.
    induction s as [|d s IHs];
      rewrite (like_percent_unfold (lower p)), (like_percent_unfold p), IH;
      [reflexivity|].
    now rewrite IHs.
  - destruct (Ascii.eqb c "_") eqn:E2.
    + apply Ascii.eqb_eq in E2. subst c.
      change (tolower "_") with "_"%char.
      destruct s as [|d s]; simpl; auto.
    + simpl. rewrite tolower_percent, tolower_underscore, E1, E2.
      destruct s as [|d s]; [reflexivity|].
      now rewrite tolower_idem, IH.
Qed.

End MoreSearchFacts.

(** X8: for every keyword [db_search] returns at most 200 rows, in
    descending order of [updated_at]; each of them is the summary of a stored
    row that the [WHERE] clause accepts, and all such rows are returned when
    there are at most 200 of them. *)
Theorem search_bounded_ordered (db : Store.t) (query : string) :
  let q := "%" ++ Text.strip query ++ "%" in
  List.length (Store.db_search db query) <= 200
  /\ Store.db_search db query = map Store.select_summary (Store.search_rows db query)
  /\ StronglySorted Store.newer_or_equal (Store.search_rows db query)
  /\ (forall r, In r (Store.search_rows db query) ->
        In r (Store.rows db) /\ Store.where_like q r = true)
  /\ (List.length (filter (Store.where_like q) (Store.rows db)) <= 200 ->
      Permutation (filter (Store.where_like q) (Store.rows db))
        (Store.search_rows db query)).
Proof.
  intros q. split; [|split; [|split; [|split]]].
  - unfold Store.db_search, Store.search_rows.
    rewrite List.length_map. apply firstn_le_length.
  - reflexivity.
  - apply StronglySorted_firstn, order_by_updated_desc_sorted.
  - intros r. apply search_rows_in.
  - intros H. unfold Store.search_rows, Store.search_ordered. fold q.
    pose proof (order_by_updated_desc_perm (filter (Store.where_like q) (Store.rows db))) as P.
    rewrite firstn_all2; [exact P|].
    now rewrite <- (Permutation_length P).
Qed.


(** X10: the search does not depend on white space around the keyword nor
    on the case of its ASCII letters. *)
Theorem search_keyword_case_and_space (db : Store.t) (k : string) :
  Store.db_search db (Text.strip k) = Store.db_search db k
  /\ Store.db_search db (Text.lower k) = Store.db_search db k.
Proof.
  unfold Store.db_search, Store.search_rows, Store.search_ordered. split.
  - now rewrite strip_idem.
  - rewrite strip_lower. f_equal. f_equal. f_equal.
    apply filter_ext. intros r. unfold Store.where_like.
    change ("%" ++ Text.lower (Text.strip k) ++ "%")
      with (Text.lower (String "%" "") ++ Text.lower (Text.strip k) ++ Text.lower "%").
    rewrite <- !lower_app.
    now rewrite !like_lower.
Qed.

(** X11: in a table that the program has built no record is listed twice:
    the ids of the rows that [db_search] returns are pairwise different. *)
Theorem search_lists_no_record_twice (db : Store.t) (last : Store.timestamp)
    (query : string)
    (Hbuilt : Store.built db last) :
  NoDup (map Store.summary_id (Store.db_search db query)).
Proof.
  apply built_consistent in Hbuilt as (Hnd & _).
  unfold Store.db_search. rewrite map_map.
  change (fun x => Store.summary_id (Store.select_summary x)) with Store.id.
  now apply search_rows_ids_NoDup.
Qed.

(** X12: in such a table every row that [db_search] lists can be fetched:
    [db_get] of its id returns the full record of which the row is the
    summary. *)
Theorem search_rows_can_be_fetched (db : Store.t) (last : Store.timestamp)
    (query : string) (s : Store.summary)
    (Hbuilt : Store.built db last)
    (Hin : In s (Store.db_search db query)) :
  exists r, In r (Store.rows db)
            /\ s = Store.select_summary r
            /\ Store.db_get db (Store.summary_id s) = Some (Store.select_full r).
Proof.
  unfold Store.db_search in Hin.
  apply in_map_iff in Hin as (r & <- & Hr).
  apply search_rows_in in Hr as (Hr & _).
  exists r. split; [exact Hr|]. split; [reflexivity|].
  unfold Store.db_get.
  change (Store.summary_id (Store.select_summary r)) with (Store.id r).
  now rewrite (lookup_stored_row db last r Hbuilt Hr).
Qed.

(** * Further properties of the session *)

(** X13: the normal form of a tags text is empty or splits at its commas
    into segments none of which is empty, has white space at either end, or
    is lost: the segments are the stripped non-blank segments of the text,
    in their order. *)
Theorem normalized_tags_segments (s : string) :
  (Text.normalize_tags s = "" /\ Text.kept_tags s = [])
  \/ (Text.split Text.comma (Text.normalize_tags s) = Text.kept_tags s
      /\ Forall (fun t => Text.strip t = t /\ t <> "")
           (Text.split Text.comma (Text.normalize_tags s))).
Proof.
  pose proof (kept_tags_canonical s) as Hc.
  unfold Text.normalize_tags.
  destruct (Text.kept_tags s) as [|t l] eqn:E.
  - left. split; reflexivity.
  - right. rewrite split_join.
    + split; [reflexivity|].
      eapply Forall_impl; [|exact Hc].
      intros a (_ & Hs & Ht). split; [exact Hs|]. now apply truthy_true.
    + discriminate.
    + eapply Forall_impl; [|exact Hc]. now intros a (H & _).
Qed.

Section MoreMethodFacts.

Import Store App.

Lemma append_nil_r (s : string) : s ++ "" = s.
Proof. induction s as [|c s IH]; simpl; congruence. Qed.

Lemma lookup_id (db : Store.t) (i : Z) (r : row) : lookup db i = Some r -> id r = i.
Proof. intros H. apply find_some in H as (_ & H). now apply Z.eqb_eq. Qed.

(** What [on_select] does when the selected item's record is there. *)
Lemma on_select_run (w : world) (item : nat) (rest : list nat)
    (values : summary) (r : row) :
  selection (app w) = item :: rest ->
  nth_error (results (app w)) item = Some values ->
  lookup (db w) (summary_id values) = Some r ->
  on_select w =
  (Return tt,
   {| app :=
        {| selected_id := Some (summary_id values);
           search_var := search_var (app w);
           title_var := title r; lang_var := language r;
           status_var := status r; tags_var := tags r;
           code_text := code r; notes_text := ifnull (notes r) "";
           results := results (app w); selection := selection (app w) |};
      db := db w;
      trace := (trace w ++ [CallGet (summary_id values)])%list |}).
Proof.
  intros Hsel Hitem Hrow.
  unfold on_select, bind, read. cbn beta iota.
  rewrite Hsel. unfold item_id, bind, read. cbn beta iota.
  rewrite Hitem. unfold ret, call_db_get, bind, emit.
  cbn [app db trace]. unfold db_get. rewrite Hrow.
  unfold write. cbn [app db trace select_full option_map].
  cbv beta iota delta
    [notes_text_insert notes_text_delete code_text_insert code_text_delete
     set_status_var set_tags_var set_lang_var set_title_var set_selected_id
     selected_id search_var title_var lang_var status_var tags_var
     code_text notes_text results selection].
  rewrite !append_nil_r, (lookup_id _ _ _ Hrow), <- Hsel. reflexivity.
Qed.

End MoreMethodFacts.

(** X14: [refresh_results] replaces the list, whatever it held, by the
    answer of [db_search] for the text of the search box and leaves nothing
    selected; the editor's fields, the session's id and the store are as
    before, and a second refresh gives the same session. *)
Theorem refresh_shows_search_answer (w : App.world) :
  exists w',
    App.refresh_results w = (App.Return tt, w')
    /\ App.results (App.app w') =
       Store.db_search (App.db w) (App.search_var (App.app w))
    /\ App.selection (App.app w') = []
    /\ App.db w' = App.db w
    /\ App.selected_id (App.app w') = App.selected_id (App.app w)
    /\ (App.title_var (App.app w'), App.lang_var (App.app w'),
        App.tags_var (App.app w'), App.status_var (App.app w'),
        App.code_text (App.app w'), App.notes_text (App.app w'),
        App.search_var (App.app w')) =
       (App.title_var (App.app w), App.lang_var (App.app w),
        App.tags_var (App.app w), App.status_var (App.app w),
        App.code_text (App.app w), App.notes_text (App.app w),
        App.search_var (App.app w))
    /\ App.app (snd (App.refresh_results w')) = App.app w'.
Proof.
  rewrite refresh_results_run. eexists. split; [reflexivity|].
  rewrite refresh_results_run. repeat split.
Qed.

(** X15: [on_select] with an item selected whose record is in the store
    loads that record: the session is in [{editing id}] for the item's id,
    the six fields hold the stored columns (the empty string for null
    notes), the former content of the code and notes widgets is gone, and
    the store is untouched. *)
Theorem select_loads_record (w : App.world) (item : nat) (rest : list nat)
    (values : Store.summary) (r : Store.row)
    (Hsel : App.selection (App.app w) = item :: rest)
    (Hitem : nth_error (App.results (App.app w)) item = Some values)
    (Hrow : Store.lookup (App.db w) (Store.summary_id values) = Some r) :
  exists w',
    App.on_select w = (App.Return tt, w')
    /\ App.editing (Store.summary_id values) (App.app w')
    /\ Store.id r = Store.summary_id values
    /\ App.title_var (App.app w') = Store.title r
    /\ App.lang_var (App.app w') = Store.language r
    /\ App.tags_var (App.app w') = Store.tags r
    /\ App.status_var (App.app w') = Store.status r
    /\ App.code_text (App.app w') = Store.code r
    /\ App.notes_text (App.app w') = Store.ifnull (Store.notes r) ""
    /\ App.db w' = App.db w
    /\ App.trace w' = (App.trace w ++ [App.CallGet (Store.summary_id values)])%list.
Proof.
  rewrite (on_select_run w item rest values r Hsel Hitem Hrow).
  eexists. split; [reflexivity|].
  repeat split. now apply lookup_id in Hrow.
Qed.

(** X16: over a table that the program has built, every item of a list
    that [refresh_results] has just filled can be selected: [on_select]
    returns without an exception and the session edits the record of which
    the item is the summary. *)
Theorem select_after_refresh (w : App.world) (last : Store.timestamp) (item : nat)
    (Hbuilt : Store.built (App.db w) last)
    (Hitem : item < List.length (Store.db_search (App.db w) (App.search_var (App.app w)))) :
  let w1 := click item (snd (App.refresh_results w)) in
  exists w2 r,
    App.on_select w1 = (App.Return tt, w2)
    /\ In r (Store.rows (App.db w))
    /\ nth_error (App.results (App.app w1)) item = Some (Store.select_summary r)
    /\ App.editing (Store.id r) (App.app w2)
    /\ App.title_var (App.app w2) = Store.title r
    /\ App.tags_var (App.app w2) = Store.tags r
    /\ App.code_text (App.app w2) = Store.code r.
Proof.
  intros w1.
  destruct (nth_error (Store.db_search (App.db w) (App.search_var (App.app w))) item)
    as [s|] eqn:E; [|apply nth_error_None in E; lia].
  pose proof (nth_error_In _ _ E) as Hin.
  unfold Store.db_search in Hin.
  apply in_map_iff in Hin as (r & <- & Hr).
  apply search_rows_in in Hr as (Hr & _).
  pose proof (lookup_stored_row _ last r Hbuilt Hr) as Hl.
  assert (App.results (App.app w1) =
          Store.db_search (App.db w) (App.search_var (App.app w))) as Hres
    by (unfold w1; rewrite refresh_results_run; reflexivity).
  assert (App.db w1 = App.db w) as Hdb
    by (unfold w1; rewrite refresh_results_run; reflexivity).
  assert (App.selection (App.app w1) = [item]) as Hsel by reflexivity.
  clearbody w1.
  rewrite <- Hres in E. rewrite <- Hdb in Hl.
  rewrite (on_select_run w1 item [] (Store.select_summary r) r Hsel E Hl).
  eexists _, r. split; [reflexivity|].
  repeat split; assumption.
Qed.

Section MoreSaveFacts.

Import Store App.

Lemma new_snippet_run (w : world) :
  new_snippet w =
  (Return tt,
   {| app :=
        {| selected_id := None; search_var := search_var (app w);
           title_var := ""; lang_var := "py";
           status_var := "draft"; tags_var := "";
           code_text := ""; notes_text := "";
           results := results (app w); selection := selection (app w) |};
      db := db w; trace := trace w |}).
Proof. reflexivity. Qed.

Lemma delete_snippet_run (w : world) (i : Z) :
  selected_id (app w) = Some i ->
  delete_snippet true w =
  (Return tt,
   {| app :=
        {| selected_id := None; search_var := search_var (app w);
           title_var := ""; lang_var := "py";
           status_var := "draft"; tags_var := "";
           code_text := ""; notes_text := "";
           results := db_search (db_delete (db w) i) (search_var (app w));
           selection := [] |};
      db := db_delete (db w) i;
      trace := (trace w ++ [CallDelete i; CallSearch (search_var (app w))])%list |}).
Proof.
  intros Hsel. unfold delete_snippet, bind, read. cbn beta iota.
  rewrite Hsel. cbn [negb]. unfold call_db_delete, bind, emit. cbn [app db trace].
  rewrite new_snippet_run. cbn [app db trace].
  rewrite refresh_results_run. cbn [app db trace search_var].
  unfold with_results. cbn [selected_id search_var title_var lang_var status_var
                            tags_var code_text notes_text].
  rewrite <- app_assoc. reflexivity.
Qed.

Lemma lstrip_head (s : string) (c : ascii) (s' : string) :
  Text.lstrip s = String c s' -> Text.is_space c = false.
Proof.
  induction s as [|d s IH]; simpl; [discriminate|].
  destruct (Text.is_space d) eqn:E; auto.
  intros [= <- _]. exact E.
Qed.

Lemma rstrip_app (a b : string) :
  Text.rstrip b <> "" -> Text.rstrip (a ++ b) = a ++ Text.rstrip b.
Proof.
  intros Hb. induction a as [|c a IH]; [reflexivity|].
  change (String c a ++ b) with (String c (a ++ b)).
  simpl. rewrite IH.
  destruct (a ++ Text.rstrip b) eqn:E; [|reflexivity].
  destruct a; simpl in E; [congruence|discriminate].
Qed.

Lemma rstrip_cons (c : ascii) (s : string) :
  Text.rstrip (String c s) =
  match Text.rstrip s with
  | EmptyString => if Text.is_space c then EmptyString else String c EmptyString
  | String d r => String c (String d r)
  end.
Proof. reflexivity. Qed.

Lemma strip_fixed_lstrip (t0 : string) : Text.strip t0 = t0 -> Text.lstrip t0 = t0.
Proof. intros H. rewrite <- H. unfold Text.strip. apply lstrip_idem. Qed.

Lemma strip_fixed_rstrip (t0 : string) : Text.strip t0 = t0 -> Text.rstrip t0 = t0.
Proof.
  intros H. rewrite <- H at 1. unfold Text.strip.
  rewrite lstrip_rstrip_comm, rstrip_idem. exact H.
Qed.

Lemma join_truthy (x : string) (l : list string) :
  Text.truthy x = true -> Text.truthy (Text.join "," (x :: l)) = true.
Proof.
  intros H. destruct x as [|c x]; [discriminate|].
  destruct l; reflexivity.
Qed.

(** A join of stripped, non-empty segments has no white space at its ends. *)
Lemma strip_join_fixed (l : list string) :
  Forall (fun t0 => Text.mem_char Text.comma t0 = false
                    /\ Text.strip t0 = t0 /\ Text.truthy t0 = true) l ->
  Text.strip (Text.join "," l) = Text.join "," l.
Proof.
  intros H.
  assert (Text.rstrip (Text.join "," l) = Text.join "," l) as Hr.
  { induction H as [|x l (_ & Hs & Ht) Hl IH]; [reflexivity|].
    destruct l as [|y l]; [now apply strip_fixed_rstrip|].
    change (Text.join "," (x :: y :: l))
      with (x ++ String Text.comma (Text.join "," (y :: l))).
    inversion Hl as [|? ? (_ & _ & Hy) _]; subst.
    pose proof (join_truthy y l Hy) as Hj.
    assert (Text.rstrip (String Text.comma (Text.join "," (y :: l))) =
            String Text.comma (Text.join "," (y :: l))) as E.
    { rewrite rstrip_cons, IH.
      destruct (Text.join "," (y :: l)); [discriminate|reflexivity]. }
    rewrite rstrip_app; rewrite E; [reflexivity|discriminate]. }
  unfold Text.strip. rewrite Hr.
  destruct H as [|x l (_ & Hs & Ht) Hl]; [reflexivity|].
  apply strip_fixed_lstrip in Hs.
  destruct x as [|c x]; [discriminate|].
  pose proof (lstrip_head _ _ _ Hs) as Hc.
  destruct l; simpl; now rewrite Hc.
Qed.

Lemma normalize_tags_twice (s : string) :
  Text.normalize_tags (Text.normalize_tags s) = Text.normalize_tags s.
Proof.
  unfold Text.normalize_tags at 2 3.
  pose proof (kept_tags_canonical s) as Hc.
  destruct (Text.kept_tags s) as [|t0 l] eqn:E; [reflexivity|].
  unfold Text.normalize_tags, Text.kept_tags. rewrite split_join.
  - now rewrite kept_tags_fixed.
  - discriminate.
  - eapply Forall_impl; [|exact Hc]. now intros a (H & _).
Qed.

(** The tags that [save_snippet] stores are a fixed point of what it does to
    the tags field. *)
Lemma normalize_strip_normalize (s : string) :
  Text.normalize_tags (Text.strip (Text.normalize_tags s)) = Text.normalize_tags s.
Proof.
  unfold Text.normalize_tags at 2.
  rewrite (strip_join_fixed _ (kept_tags_canonical s)).
  apply normalize_tags_twice.
Qed.

Lemma blank_segments_dropped (l : list string) :
  Forall (fun t0 => Text.strip t0 = "") l ->
  map Text.strip (filter (fun t0 => Text.truthy (Text.strip t0)) l) = [].
Proof. induction 1 as [|x l Hx _ IH]; simpl; [reflexivity|]. now rewrite Hx. Qed.

End MoreSaveFacts.

(** X17: [delete_snippet] does nothing at all when no record is selected
    or when the user does not confirm.  Confirmed in [{editing i}], it
    deletes the record [i] and nothing else from the store, resets the
    session as [new_snippet] does and refreshes the list: [db_get] of [i]
    finds nothing and no listed row has the id [i]. *)
Theorem delete_snippet_effect (w : App.world) :
  (forall confirmed,
      App.no_selection (App.app w) ->
      App.delete_snippet confirmed w = (App.Return tt, w))
  /\ App.delete_snippet false w = (App.Return tt, w)
  /\ (forall i,
        App.editing i (App.app w) ->
        exists w',
          App.delete_snippet true w = (App.Return tt, w')
          /\ App.db w' = Store.db_delete (App.db w) i
          /\ Store.db_get (App.db w') i = None
          /\ App.no_selection (App.app w')
          /\ (App.title_var (App.app w'), App.lang_var (App.app w'),
              App.tags_var (App.app w'), App.status_var (App.app w'),
              App.code_text (App.app w'), App.notes_text (App.app w')) =
             ("", "py", "", "draft", "", "")
          /\ App.results (App.app w') =
             Store.db_search (Store.db_delete (App.db w) i) (App.search_var (App.app w))
          /\ Forall (fun s => Store.summary_id s <> i) (App.results (App.app w'))
          /\ App.trace w' =
             (App.trace w ++
              [App.CallDelete i; App.CallSearch (App.search_var (App.app w))])%list).
Proof.
  split; [|split].
  - intros confirmed H. unfold App.delete_snippet, App.bind, App.read.
    cbn beta iota. now rewrite H.
  - unfold App.delete_snippet, App.bind, App.read. cbn beta iota.
    now destruct (App.selected_id (App.app w)).
  - intros i H. rewrite (delete_snippet_run w i H).
    eexists. split; [reflexivity|]. cbn [App.app App.db App.trace App.results].
    split; [reflexivity|]. split.
    { unfold Store.db_get, Store.lookup, Store.db_delete. simpl.
      now rewrite find_filter_same. }
    repeat (split; [reflexivity|]). split; [|reflexivity].
    apply Forall_forall. intros s Hs.
    unfold Store.db_search in Hs.
    apply in_map_iff in Hs as (r & <- & Hr).
    apply search_rows_in in Hr as (Hr & _).
    unfold Store.db_delete in Hr. simpl in Hr.
    apply filter_In in Hr as (_ & Hr).
    apply negb_true_iff, Z.eqb_neq in Hr. exact Hr.
Qed.

(** X18: a save in [{editing i}] after the record [i] has gone from the
    store writes nothing: [db_update] is called and changes no row, the store
    is as before, and the user is still told that the snippet was saved. *)
Theorem save_of_vanished_record (now : Store.timestamp) (w : App.world) (i : Z)
    (Hvalid : App.required_present (App.app w))
    (Hedit : App.editing i (App.app w))
    (Hgone : Store.db_get (App.db w) i = None) :
  exists w' call,
    App.save_snippet now w = (App.Return tt, w')
    /\ App.db w' = App.db w
    /\ App.editing i (App.app w')
    /\ App.trace w' =
       (App.trace w ++
        [call; App.CallSearch (App.search_var (App.app w));
         App.ShowInfo "Saved" "Snippet saved."])%list
    /\ exists t l g s c n, call = App.CallUpdate i t l g s c n.
Proof.
  rewrite (save_snippet_updates now w i Hvalid Hedit).
  apply db_get_none in Hgone.
  eexists _, _. split; [reflexivity|]. cbn [App.db App.app App.trace].
  split; [now apply db_update_absent|].
  split; [exact Hedit|]. split; [reflexivity|].
  now eexists _, _, _, _, _, _.
Qed.

(** X19: a tags field that is not blank but whose comma-separated segments
    all are (commas and white space only) passes the check of
    [save_snippet]: the record is stored, with the empty string as its
    tags. *)
Theorem save_accepts_blank_tag_segments (now : Store.timestamp) (w : App.world)
    (Hvalid : App.required_present (App.app w))
    (Hnew : App.no_selection (App.app w))
    (Hblank : Forall (fun t => Text.strip t = "")
                (Text.split Text.comma (Text.strip (App.tags_var (App.app w))))) :
  exists w' i,
    App.save_snippet now w = (App.Return tt, w')
    /\ App.editing i (App.app w')
    /\ option_map Store.full_tags (Store.db_get (App.db w') i) = Some "".
Proof.
  rewrite (save_snippet_inserts now w Hvalid Hnew).
  eexists _, _. split; [reflexivity|]. split; [reflexivity|].
  cbn [App.db]. rewrite db_get_insert.
  unfold Text.normalize_tags, Text.kept_tags.
  now rewrite (blank_segments_dropped _ Hblank).
Qed.

(** X20: the record that a successful save leaves under the session's id
    holds canonical text: title, language, status, code and notes are
    stripped, the notes are not null, the tags are the normal form of the
    tags field and saving them again would not change them; its
    [updated_at] is the time of the save. *)
Theorem save_stores_canonical_text (now : Store.timestamp) (w : App.world)
    (Hvalid : App.required_present (App.app w))
    (Hstate : App.no_selection (App.app w)
              \/ exists i, App.editing i (App.app w)
                           /\ Store.db_get (App.db w) i <> None) :
  exists w' i r,
    App.save_snippet now w = (App.Return tt, w')
    /\ App.editing i (App.app w')
    /\ Store.lookup (App.db w') i = Some r
    /\ saved_form r
    /\ Store.tags r = Text.normalize_tags (Text.strip (App.tags_var (App.app w)))
    /\ Store.updated_at r = now.
Proof.
  destruct Hstate as [Hnew | (i & Hedit & Hthere)].
  - rewrite (save_snippet_inserts now w Hvalid Hnew).
    eexists _, _, _. split; [reflexivity|]. split; [reflexivity|].
    cbn [App.db]. split; [apply lookup_insert|].
    split; [|split; reflexivity].
    unfold saved_form, Store.set_columns.
    cbn [Store.title Store.language Store.tags Store.status Store.code Store.notes].
    rewrite !strip_idem, normalize_strip_normalize.
    repeat split. eexists. split; [reflexivity|]. apply strip_idem.
  - destruct (Store.lookup (App.db w) i) as [r|] eqn:Hr;
      [|exfalso; apply Hthere; now apply db_get_none].
    rewrite (save_snippet_updates now w i Hvalid Hedit).
    eexists _, i, _. split; [reflexivity|]. split; [exact Hedit|].
    cbn [App.db]. split; [exact (lookup_update_same _ now i _ _ _ _ _ _ r Hr)|].
    split; [|split; reflexivity].
    unfold saved_form, Store.set_columns.
    cbn [Store.title Store.language Store.tags Store.status Store.code Store.notes].
    rewrite !strip_idem, normalize_strip_normalize.
    repeat split. eexists. split; [reflexivity|]. apply strip_idem.
Qed.

(** X21: selecting a record that holds canonical text, with title,
    language, tags and code not empty, and saving it without an edit
    changes none of its editable fields: the store then holds the same
    record with only [updated_at] set to the time of the save, and every
    other record as before. *)
Theorem reload_and_save_keeps_record (now : Store.timestamp) (w : App.world)
    (item : nat) (rest : list nat) (values : Store.summary) (r : Store.row)
    (Hsel : App.selection (App.app w) = item :: rest)
    (Hitem : nth_error (App.results (App.app w)) item = Some values)
    (Hrow : Store.lookup (App.db w) (Store.summary_id values) = Some r)
    (Hform : saved_form r)
    (Hfilled : Store.title r <> "" /\ Store.language r <> ""
               /\ Store.tags r <> "" /\ Store.code r <> "") :
  exists w1 w2,
    App.on_select w = (App.Return tt, w1)
    /\ App.save_snippet now w1 = (App.Return tt, w2)
    /\ Store.lookup (App.db w2) (Store.id r) =
       Some {| Store.id := Store.id r; Store.title := Store.title r;
               Store.language := Store.language r; Store.tags := Store.tags r;
               Store.status := Store.status r; Store.code := Store.code r;
               Store.notes := Store.notes r;
               Store.created_at := Store.created_at r;
               Store.updated_at := now |}
    /\ (forall j, j <> Store.id r ->
          Store.lookup (App.db w2) j = Store.lookup (App.db w) j).
Proof.
  destruct Hform as (Ht & Hl & Hg & Hs & Hc & n & Hn & Hns).
  destruct Hfilled as (Ft & Fl & Fg & Fc).
  pose proof (lookup_id _ _ _ Hrow) as Hid.
  rewrite (on_select_run w item rest values r Hsel Hitem Hrow).
  eexists _, _. split; [reflexivity|].
  match goal with |- App.save_snippet now ?w1 = _ /\ _ => set (w1' := w1) end.
  assert (App.required_present (App.app w1')) as Hreq.
  { unfold App.required_present, w1'.
    cbn [App.app App.title_var App.lang_var App.tags_var App.code_text].
    rewrite Ht, Hl, Hc. repeat split; auto.
    intros E. apply Fg. rewrite <- Hg, E. reflexivity. }
  assert (App.selected_id (App.app w1') = Some (Store.summary_id values)) as Hed
    by reflexivity.
  rewrite (save_snippet_updates now w1' _ Hreq Hed).
  split; [reflexivity|]. cbn [App.db].
  unfold w1'.
  cbn [App.app App.db App.title_var App.lang_var App.tags_var App.status_var
       App.code_text App.notes_text].
  rewrite Ht, Hl, Hg, Hs, Hc, Hn. cbn [Store.ifnull]. rewrite Hns, Hid.
  split.
  - rewrite (lookup_update_same _ now _ _ _ _ _ _ _ r Hrow).
    unfold Store.set_columns. now rewrite Hid.
  - intros j Hj. now apply lookup_update_other.
Qed.

(** X22: [copy_code] leaves the clipboard as it is when the code widget is
    blank; otherwise the clipboard holds, instead of what it held, the
    stripped code, without the newline that the widget adds: the text that
    [save_snippet] would store as code. *)
Theorem copy_code_result (a : App.state) (clipboard : string) :
  (Text.strip (App.code_text a) = "" -> copy_code a clipboard = clipboard)
  /\ (Text.strip (App.code_text a) <> "" ->
      copy_code a clipboard = Text.strip (App.code_text a)).
Proof.
  unfold copy_code. rewrite strip_text_get. split; intros H.
  - now rewrite H.
  - apply truthy_true in H. now rewrite H.
Qed.

(** ** The further properties at the sample data *)

Lemma sample_store_built : Store.built Sample.store 20.
Proof.
  apply (Store.built_step _ 10 20
           (Store.Insert "Quick Sort" "c" "algo,sort" "tested"
              "void qs(int *a, int n);" None)); [|lia].
  apply (Store.built_step Store.empty 0 10
           (Store.Insert "Bin Search" "py" "algo,search" "draft"
              "def f(): pass" (Some ""))); [|lia].
  apply Store.built_empty.
Qed.

Lemma sample_form_required : App.required_present Sample.form.
Proof. vm_compute. repeat split; discriminate. Qed.

Lemma delete_missing_changes_nothing_witness :
  Store.db_get Sample.store 7 = None
  /\ Store.db_delete Sample.store 7 = Sample.store.
Proof.
  split; [reflexivity|].
  exact (delete_missing_changes_nothing Sample.store 7 eq_refl).
Defined.

Lemma update_missing_changes_nothing_witness :
  Store.db_get Sample.store 7 = None
  /\ Store.db_update Sample.store 30 7 "Heap" "py" "algo" "draft" "pass" None =
     Sample.store.
Proof.
  split; [reflexivity|].
  exact (update_missing_changes_nothing Sample.store 30 7 "Heap" "py" "algo" "draft"
           "pass" None eq_refl).
Defined.

Lemma built_table_invariants_witness :
  NoDup (map Store.id (Store.rows Sample.store))
  /\ (forall r, In r (Store.rows Sample.store) ->
        (0 < Store.id r)%Z /\ Store.created_at r <= Store.updated_at r).
Proof. exact (built_table_invariants Sample.store 20 sample_store_built). Defined.

Lemma get_returns_stored_row_witness :
  In Sample.quick_sort (Store.rows Sample.store)
  /\ Store.db_get Sample.store 2 = Some (Store.select_full Sample.quick_sort).
Proof.
  assert (In Sample.quick_sort (Store.rows Sample.store)) as Hin
    by (simpl; right; left; reflexivity).
  split; [exact Hin|].
  exact (get_returns_stored_row Sample.store 20 Sample.quick_sort sample_store_built Hin).
Defined.


Lemma search_lists_no_record_twice_witness :
  NoDup (map Store.summary_id (Store.db_search Sample.store "algo")).
Proof.
  exact (search_lists_no_record_twice Sample.store 20 "algo" sample_store_built).
Defined.

Lemma search_rows_can_be_fetched_witness :
  exists r, In r (Store.rows Sample.store)
            /\ Store.select_summary Sample.bin_search = Store.select_summary r
            /\ Store.db_get Sample.store
                 (Store.summary_id (Store.select_summary Sample.bin_search)) =
               Some (Store.select_full r).
Proof.
  assert (In (Store.select_summary Sample.bin_search)
            (Store.db_search Sample.store "algo")) as Hin
    by (vm_compute; right; left; reflexivity).
  exact (search_rows_can_be_fetched Sample.store 20 "algo"
           (Store.select_summary Sample.bin_search) sample_store_built Hin).
Defined.

Lemma select_loads_record_witness :
  exists w',
    App.on_select Scenario.fresh_list = (App.Return tt, w')
    /\ App.editing 1 (App.app w')
    /\ Store.id Sample.bin_search = 1%Z
    /\ App.title_var (App.app w') = "Bin Search"
    /\ App.lang_var (App.app w') = "py"
    /\ App.tags_var (App.app w') = "algo,search"
    /\ App.status_var (App.app w') = "draft"
    /\ App.code_text (App.app w') = "def f(): pass"
    /\ App.notes_text (App.app w') = ""
    /\ App.db w' = Sample.store
    /\ App.trace w' = [App.CallGet 1].
Proof.
  exact (select_loads_record Scenario.fresh_list 1 []
           (Store.select_summary Sample.bin_search) Sample.bin_search
           eq_refl eq_refl eq_refl).
Defined.

Lemma select_after_refresh_witness :
  exists w2 r,
    App.on_select (click 0 (snd (App.refresh_results Sample.new_form))) =
    (App.Return tt, w2)
    /\ In r (Store.rows Sample.store)
    /\ nth_error
         (App.results (App.app (click 0 (snd (App.refresh_results Sample.new_form))))) 0 =
       Some (Store.select_summary r)
    /\ App.editing (Store.id r) (App.app w2)
    /\ App.title_var (App.app w2) = Store.title r
    /\ App.tags_var (App.app w2) = Store.tags r
    /\ App.code_text (App.app w2) = Store.code r.
Proof.
  assert (0 < List.length (Store.db_search Sample.store "algo")) as Hlt
    by (vm_compute; lia).
  exact (select_after_refresh Sample.new_form 20 0 sample_store_built Hlt).
Defined.

Lemma delete_snippet_effect_witness :
  App.editing 1 (App.app Sample.edit_form)
  /\ exists w',
       App.delete_snippet true Sample.edit_form = (App.Return tt, w')
       /\ App.db w' = Store.db_delete Sample.store 1
       /\ Store.db_get (App.db w') 1 = None
       /\ App.no_selection (App.app w')
       /\ (App.title_var (App.app w'), App.lang_var (App.app w'),
           App.tags_var (App.app w'), App.status_var (App.app w'),
           App.code_text (App.app w'), App.notes_text (App.app w')) =
          ("", "py", "", "draft", "", "")
       /\ App.results (App.app w') =
          Store.db_search (Store.db_delete Sample.store 1) "algo"
       /\ Forall (fun s => Store.summary_id s <> 1%Z) (App.results (App.app w'))
       /\ App.trace w' = [App.CallDelete 1; App.CallSearch "algo"].
Proof.
  split; [reflexivity|].
  exact (proj2 (proj2 (delete_snippet_effect Sample.edit_form)) 1%Z eq_refl).
Defined.

Lemma save_of_vanished_record_witness :
  Store.db_get Sample.store 7 = None
  /\ exists w' call,
       App.save_snippet 30 Scenario.vanished = (App.Return tt, w')
       /\ App.db w' = Sample.store
       /\ App.editing 7 (App.app w')
       /\ App.trace w' =
          [call; App.CallSearch "algo"; App.ShowInfo "Saved" "Snippet saved."]
       /\ exists t l g s c n, call = App.CallUpdate 7 t l g s c n.
Proof.
  split; [reflexivity|].
  exact (save_of_vanished_record 30 Scenario.vanished 7
           sample_form_required eq_refl eq_refl).
Defined.

Lemma save_accepts_blank_tag_segments_witness :
  Text.strip (App.tags_var (App.app Scenario.comma_tags)) = ", ,"
  /\ exists w' i,
       App.save_snippet 30 Scenario.comma_tags = (App.Return tt, w')
       /\ App.editing i (App.app w')
       /\ option_map Store.full_tags (Store.db_get (App.db w') i) = Some "".
Proof.
  assert (App.required_present (App.app Scenario.comma_tags)) as Hreq
    by (vm_compute; repeat split; discriminate).
  assert (Forall (fun t => Text.strip t = "")
            (Text.split Text.comma
               (Text.strip (App.tags_var (App.app Scenario.comma_tags))))) as Hblank
    by (vm_compute; repeat constructor).
  split; [reflexivity|].
  exact (save_accepts_blank_tag_segments 30 Scenario.comma_tags Hreq eq_refl Hblank).
Defined.

Lemma save_stores_canonical_text_witness :
  exists w' i r,
    App.save_snippet 30 Sample.new_form = (App.Return tt, w')
    /\ App.editing i (App.app w')
    /\ Store.lookup (App.db w') i = Some r
    /\ saved_form r
    /\ Store.tags r = Text.normalize_tags (Text.strip "a, b , c")
    /\ Store.updated_at r = 30.
Proof.
  exact (save_stores_canonical_text 30 Sample.new_form sample_form_required
           (or_introl eq_refl)).
Defined.

Lemma reload_and_save_keeps_record_witness :
  saved_form Sample.bin_search
  /\ exists w1 w2,
       App.on_select Scenario.fresh_list = (App.Return tt, w1)
       /\ App.save_snippet 30 w1 = (App.Return tt, w2)
       /\ Store.lookup (App.db w2) 1 =
          Some {| Store.id := 1; Store.title := "Bin Search";
                  Store.language := "py"; Store.tags := "algo,search";
                  Store.status := "draft"; Store.code := "def f(): pass";
                  Store.notes := Some "";
                  Store.created_at := 10; Store.updated_at := 30 |}
       /\ (forall j, j <> 1%Z ->
             Store.lookup (App.db w2) j = Store.lookup Sample.store j).
Proof.
  assert (saved_form Sample.bin_search) as Hform.
  { unfold saved_form. repeat split; try reflexivity.
    exists "". split; reflexivity. }
  assert (Store.title Sample.bin_search <> "" /\ Store.language Sample.bin_search <> ""
          /\ Store.tags Sample.bin_search <> "" /\ Store.code Sample.bin_search <> "")
    as Hfilled by (repeat split; discriminate).
  split; [exact Hform|].
  exact (reload_and_save_keeps_record 30 Scenario.fresh_list 1 []
           (Store.select_summary Sample.bin_search) Sample.bin_search
           eq_refl eq_refl eq_refl Hform Hfilled).
Defined.

Lemma copy_code_result_witness :
  copy_code (App.set_title_var "x" (App.code_text_delete Sample.form)) "kept" = "kept"
  /\ copy_code Sample.form "replaced" = "def ms(xs): pass".
Proof.
  split.
  - exact (proj1 (copy_code_result
                    (App.set_title_var "x" (App.code_text_delete Sample.form)) "kept")
             eq_refl).
  - assert (Text.strip (App.code_text Sample.form) <> "") as H
      by (vm_compute; discriminate).
    exact (proj2 (copy_code_result Sample.form "replaced") H).
Defined.

Lemma delete_removes_only_that_record_witness :
  Store.db_get (Store.db_delete Sample.store 1) 1 = None
  /\ Store.db_get (Store.db_delete Sample.store 1) 2 = Store.db_get Sample.store 2
  /\ List.length (Store.rows (Store.db_delete Sample.store 1)) <= 2.
Proof.
  assert (2 <> 1)%Z as Hne by lia.
  pose proof (delete_removes_only_that_record Sample.store 1) as (H1 & H2 & H3).
  split; [exact H1|]. split; [exact (H2 2%Z Hne) | exact H3].
Defined.

Lemma insert_adds_one_fresh_record_witness :
  Store.db_get Sample.store 3 = None
  /\ Store.db_get
       (snd (Store.db_insert Sample.store 30 "Heap" "py" "algo" "draft" "pass" None)) 1 =
     Store.db_get Sample.store 1
  /\ List.length
       (Store.rows
          (snd (Store.db_insert Sample.store 30 "Heap" "py" "algo" "draft" "pass" None))) = 3.
Proof.
  assert (1 <> 3)%Z as Hne by lia.
  pose proof (insert_adds_one_fresh_record Sample.store 30 "Heap" "py" "algo" "draft"
                "pass" None) as (H1 & H2 & H3).
  split; [exact H1|]. split; [exact (H2 1%Z Hne) | exact H3].
Defined.

Lemma search_bounded_ordered_witness :
  List.length
    (filter (Store.where_like ("%" ++ Text.strip " algo" ++ "%")) (Store.rows Sample.store))
  <= 200
  /\ Permutation
       (filter (Store.where_like ("%" ++ Text.strip " algo" ++ "%"))
          (Store.rows Sample.store))
       (Store.search_rows Sample.store " algo").
Proof.
  assert (List.length
            (filter (Store.where_like ("%" ++ Text.strip " algo" ++ "%"))
               (Store.rows Sample.store)) <= 200) as Hlen
    by (vm_compute; lia).
  split; [exact Hlen|].
  exact (proj2 (proj2 (proj2 (proj2 (search_bounded_ordered Sample.store " algo")))) Hlen).
Defined.
